(** * django_exportable_admin: the [ExportableAdmin] mixin

    A shallow embedding of [django_exportable_admin/admin.py].  The module
    is Python 2 glue over Django's admin: it swaps the paginator when a
    request is flagged as an export, builds the "Export ..." buttons,
    post-processes the change-list response for delimited exports, writes a
    spreadsheet for [xls] exports and registers one route per export.

    Conventions of the embedding
    - Python objects that are used as attribute bags or dictionaries (the
      request, a model instance, [extra_context], [context_data], response
      headers) are finite maps keyed by strings.
    - A raised exception is a value of [exn]; fallible code returns
      [result A := exn + A].
    - [changelist_view] mutates the request and calls into the host
      framework, so it runs in a small state-and-error monad whose state is
      the request together with the trace of calls that left the method.
    - What Django itself provides ([Paginator], [reverse], [slugify], the
      parent [changelist_view], the parent [get_urls]) is a section
      variable or a field of the admin object: it is behaviour of the host,
      not of this module.
    - Text is ASCII: [lower] and [upper] map the letters a-z and A-Z and
      leave every other byte alone. *)

From Stdlib Require Import ZArith Ascii String.
From stdpp Require Import base option list gmap strings pretty fin_maps.

Local Open Scope string_scope.
Local Open Scope list_scope.

(** ** Python values and strings *)

Module Py.

(** The Python values that flow through the module. *)
Inductive value :=
| None_
| Bool (b : bool)
| Int (z : Z)
| Str (s : string).

(** [unicode(v)] (and, for these values, [str(v)] and ["%s" % v]). *)
Definition unicode (v : value) : string :=
  match v with
  | None_ => "None"
  | Bool true => "True"
  | Bool false => "False"
  | Int z => pretty z
  | Str s => s
  end.

Definition is_upper_letter (c : ascii) : bool :=
  (65 <=? nat_of_ascii c)%nat && (nat_of_ascii c <=? 90)%nat.

Definition is_lower_letter (c : ascii) : bool :=
  (97 <=? nat_of_ascii c)%nat && (nat_of_ascii c <=? 122)%nat.

Definition lower_char (c : ascii) : ascii :=
  if is_upper_letter c then ascii_of_nat (nat_of_ascii c + 32) else c.

Definition upper_char (c : ascii) : ascii :=
  if is_lower_letter c then ascii_of_nat (nat_of_ascii c - 32) else c.

Fixpoint map_chars (f : ascii -> ascii) (s : string) : string :=
  match s with
  | EmptyString => EmptyString
  | String c s' => String (f c) (map_chars f s')
  end.

(** [s.lower()] and [s.upper()]. *)
Definition lower : string -> string := map_chars lower_char.
Definition upper : string -> string := map_chars upper_char.

(** Exceptions that can leave the module.  [HostError] stands for
    whatever the host framework raises on its own; [ValueError] and the
    plain [Exception] are what [xlwt] raises. *)
Inductive exn :=
| AttributeError (what : string)
| KeyError (key : string)
| TypeError (what : string)
| ValueError (what : string)
| Exception (what : string)
| NoReverseMatch (viewname : string)
| HostError (what : string).

Definition result (A : Type) : Type := exn + A.

Definition is_ok {A} (r : result A) : bool :=
  match r with inr _ => true | inl _ => false end.

(** Evaluate [f] on each element in order; the first exception wins.
    This is how a list comprehension with a fallible body behaves. *)
Fixpoint comprehension {A B} (f : A -> result B) (l : list A)
  : result (list B) :=
  match l with
  | [] => inr []
  | x :: l' =>
      match f x with
      | inl e => inl e
      | inr y =>
          match comprehension f l' with
          | inl e => inl e
          | inr ys => inr (y :: ys)
          end
      end
  end.

(** [for x in l: s = body(s, x)] with a body that can raise: the first
    exception ends the loop. *)
Fixpoint for_each {A S} (body : S -> A -> result S) (s : S) (l : list A)
  : result S :=
  match l with
  | [] => inr s
  | x :: l' =>
      match body s x with
      | inl e => inl e
      | inr s' => for_each body s' l'
      end
  end.

(** [enumerate(l)], counting from [k]. *)
Fixpoint enumerate_from {A} (k : nat) (l : list A) : list (nat * A) :=
  match l with
  | [] => []
  | x :: l' => (k, x) :: enumerate_from (S k) l'
  end.

Definition enumerate {A} (l : list A) : list (nat * A) := enumerate_from 0 l.

End Py.

Import Py.

(** ** The host framework's data *)

(** An object seen as its attribute dictionary. *)
Abbreviation Attrs := (gmap string value).

(** [hasattr(o, a)], [setattr(o, a, v)] and [getattr(o, a, default)]. *)
Definition hasattr (o : Attrs) (a : string) : bool :=
  bool_decide (is_Some (o !! a)).

Definition setattr (o : Attrs) (a : string) (v : value) : Attrs :=
  <[a := v]> o.

Definition getattr_default (o : Attrs) (a : string) (d : value) : value :=
  default d (o !! a).

(** A request is an attribute bag; a model instance (a row) is one too. *)
Abbreviation Request := Attrs.
Abbreviation Row := Attrs.
Abbreviation QuerySet := (list Row).

(** A model field: [name] and [verbose_name] (which may be unset). *)
Record Field := {
  field_name : string;
  field_verbose_name : option string;
}.

(** [model._meta]. *)
Record Options := {
  app_label : string;
  module_name : string;
  verbose_name : string;
  verbose_name_plural : string;
  fields : list Field;
}.

(** What Django's [Paginator.__init__] receives and stores. *)
Record Paginator := paginator {
  object_list : QuerySet;
  per_page : Z;
  orphans : Z;
  allow_empty_first_page : bool;
}.

(** Values of the [extra_context] dictionary: plain values placed there by
    the routes, and the list of buttons placed there by [changelist_view]. *)
Inductive ctx_value :=
| CPy (v : value)
| CButtons (buttons : list (string * string)).

Abbreviation ExtraContext := (gmap string ctx_value).

(** A view callable held by a route. *)
Inductive View :=
| HostView (ident : string)
| AdminChangelistView.      (* admin_site.admin_view(self.changelist_view) *)

(** A [url(regex, view, kwargs, name)] entry. *)
Record Route := url {
  regex : string;
  callback : View;
  route_name : option string;
  default_kwargs : gmap string ExtraContext;
}.

(** ** The admin object *)

(** The class attributes of [ExportableAdmin] together with what the
    instance inherits from [ModelAdmin]: the model's [_meta],
    [list_display] and the routes of the parent [get_urls]. *)
Record ExportableAdmin := {
  meta : Options;
  list_display : list string;
  super_get_urls : list Route;
  export_queryset_limit : Z;
  export_formats : list (string * string);
  export_types : list string;
}.

Section Classes.
Variables (m : Options) (ld : list string) (host_urls : list Route).

(** [class ExportableAdmin]: 10,000 results, no format, no type. *)
Definition ExportableAdmin_ : ExportableAdmin :=
  {| meta := m; list_display := ld; super_get_urls := host_urls;
     export_queryset_limit := 10000;
     export_formats := [];
     export_types := [] |}.

Definition subclass (formats : list (string * string)) (types : list string)
  : ExportableAdmin :=
  {| meta := m; list_display := ld; super_get_urls := host_urls;
     export_queryset_limit := export_queryset_limit ExportableAdmin_;
     export_formats := formats;
     export_types := types |}.

Definition XLSExportableAdmin := subclass [] ["xls"].
Definition CSVExportableAdmin := subclass [("CSV", ",")] [].
Definition PipeExportableAdmin := subclass [("Pipe", "|")] [].
Definition MultiExportableAdmin := subclass [("CSV", ","); ("Pipe", "|")] [].
End Classes.

(** ** [get_paginator] *)

Definition get_paginator (self : ExportableAdmin) (request : Request)
    (queryset : QuerySet) (per_page : Z) (orphans : Z)
    (allow_empty_first_page : bool) : Paginator :=
  if hasattr request "is_export_request"
  then paginator queryset (export_queryset_limit self) 0 true
  else paginator queryset per_page orphans allow_empty_first_page.

(** ** Responses *)

(** What a call of [response.context_data] finds: a plain [HttpResponse]
    has no such attribute, a [TemplateResponse] holds [None] or a dict. *)
Inductive resp_value :=
| ChangeList (query_set : QuerySet)
| Other (v : value).

Inductive context_attr :=
| NoContextAttr
| ContextNone
| ContextDict (d : gmap string resp_value).

(** A sheet of an [xlwt] workbook: its name and the cells written so far,
    keyed by (row, column). *)
Record Sheet := {
  sheet_name : string;
  cells : gmap (nat * nat) string;
}.

(** The body of a response: a template still to be rendered by the host,
    plain text, or the bytes of a saved workbook (kept as the workbook). *)
Inductive Body :=
| Unrendered
| Raw (s : string)
| Xls (workbook : list Sheet).

(** Headers are stored the way [HttpResponse.__setitem__] stores them:
    under the lower-cased name, as the pair (name, value). *)
Record Response := {
  template_name : option string;
  context_data : context_attr;
  headers : gmap string (string * string);
  content : Body;
}.

Definition set_template_name (r : Response) (t : string) : Response :=
  {| template_name := Some t; context_data := context_data r;
     headers := headers r; content := content r |}.

Definition set_header (r : Response) (name v : string) : Response :=
  {| template_name := template_name r; context_data := context_data r;
     headers := <[lower name := (name, v)]> (headers r);
     content := content r |}.

Definition get_header (r : Response) (name : string) : option string :=
  snd <$> headers r !! lower name.

(** [HttpResponse(mimetype=mt)]. *)
Definition HttpResponse (mimetype : string) : Response :=
  {| template_name := None; context_data := NoContextAttr;
     headers := {[ lower "Content-Type" := ("Content-Type", mimetype) ]};
     content := Raw "" |}.

(** *** The [xlwt] calls

    [wbk.add_sheet(name)], [sht.write(r, c, label)] and
    [wbk.save(response)] for a workbook with a single sheet.  The sheet
    object is shared between [sht] and [wbk], so the workbook saved is the
    one holding the sheet as last written.  Each call raises where [xlwt]
    raises: [add_sheet] on a sheet name it does not accept, [write] on a
    row or column outside the [xls] format and on a cell already written,
    [save] on a text that is too long. *)

(** The state of a sheet just created, of a sheet after an accepted
    write, and of a response after an accepted save. *)
Definition blank_sheet (name : string) : Sheet :=
  {| sheet_name := name; cells := ∅ |}.

Definition put_cell (sht : Sheet) (r c : nat) (label : string) : Sheet :=
  {| sheet_name := sheet_name sht; cells := <[(r, c) := label]> (cells sht) |}.

Definition stored_workbook (wbk : list Sheet) (r : Response) : Response :=
  {| template_name := template_name r; context_data := context_data r;
     headers := headers r; content := Xls wbk |}.

(** [xlwt.Utils.valid_sheet_name]: not empty, not starting with an
    apostrophe, at most 31 characters, and none of [ ] : \ ? / * and
    the NUL character. *)
Definition forbidden_in_sheet_name (c : ascii) : bool :=
  existsb (Nat.eqb (nat_of_ascii c)) [91; 93; 58; 92; 63; 47; 42; 0].

Definition valid_sheet_name (name : string) : bool :=
  match name with
  | EmptyString => false
  | String c _ =>
      negb (nat_of_ascii c =? 39)%nat
      && (String.length name <=? 31)%nat
      && forallb (fun c => negb (forbidden_in_sheet_name c))
                 (list_ascii_of_string name)
  end.

Definition add_sheet (name : string) : result Sheet :=
  if valid_sheet_name name
  then inr (blank_sheet name)
  else inl (Exception "invalid worksheet name").

(** The last row and column of the [xls] format, and the longest text a
    cell can hold. *)
Definition max_row : nat := 65535.
Definition max_column : nat := 255.
Definition max_text : nat := 32767.

Definition sheet_write (sht : Sheet) (r c : nat) (label : string)
    : result Sheet :=
  if (max_row <? r)%nat
  then inl (ValueError "row index not allowed by .xls format")
  else if (max_column <? c)%nat
  then inl (ValueError "column index not an int in range(256)")
  else if bool_decide (is_Some (cells sht !! (r, c)))
  then inl (Exception "Attempt to overwrite cell")
  else inr (put_cell sht r c label).

Definition short_text (label : string) : bool :=
  (String.length label <=? max_text)%nat.

Definition save_workbook (wbk : list Sheet) (r : Response)
    : result Response :=
  if forallb (fun sht =>
                forallb (fun cell => short_text (snd cell))
                        (map_to_list (cells sht))) wbk
  then inr (stored_workbook wbk r)
  else inl (Exception "String longer than 32767 characters").

(** ** Errors and state *)

Definition rbind {A B} (r : result A) (k : A -> result B) : result B :=
  match r with
  | inl e => inl e
  | inr a => k a
  end.

Notation "'let?' x ':=' e 'in' k" := (rbind e (fun x => k))
  (at level 10, x name, e at level 100, k at level 200).

(** A call that leaves [changelist_view]: the parent's [changelist_view],
    or a method [export_type_<t>] found on [self]. *)
Inductive Event :=
| SuperChangelistView (request : Request) (extra_context : option ExtraContext)
| ExportTypeMethod (method_name : string) (request : Request)
    (response : Response) (extra_context : option ExtraContext).

Definition is_export_type_call (e : Event) : bool :=
  match e with
  | ExportTypeMethod _ _ _ _ => true
  | SuperChangelistView _ _ => false
  end.

(** The mutable request and the calls made so far, oldest first. *)
Record World := {
  the_request : Request;
  trace : list Event;
}.

Definition M (A : Type) : Type := World -> result A * World.

Definition ret {A} (a : A) : M A := fun w => (inr a, w).

Definition bind {A B} (c : M A) (k : A -> M B) : M B :=
  fun w =>
    match c w with
    | (inl e, w') => (inl e, w')
    | (inr a, w') => k a w'
    end.

Notation "'let*' x ':=' e 'in' k" := (bind e (fun x => k))
  (at level 10, x name, e at level 100, k at level 200).

Definition lift {A} (r : result A) : M A := fun w => (r, w).

Definition get_request : M Request := fun w => (inr (the_request w), w).

(** [request.<a> = v]. *)
Definition set_request_attr (a : string) (v : value) : M unit :=
  fun w => (inr tt, {| the_request := setattr (the_request w) a v;
                       trace := trace w |}).

Definition emit (e : Event) : M unit :=
  fun w => (inr tt, {| the_request := the_request w;
                       trace := trace w ++ [e] |}).

(** ** [export_type_xls] *)

(** [response.context_data['cl'].query_set]. *)
Definition response_query_set (response : Response) : result QuerySet :=
  match context_data response with
  | NoContextAttr =>
      inl (AttributeError "context_data")
  | ContextNone =>
      inl (TypeError "'NoneType' object has no attribute '__getitem__'")
  | ContextDict d =>
      match d !! "cl" with
      | None => inl (KeyError "cl")
      | Some (ChangeList qs) => inr qs
      | Some (Other _) => inl (AttributeError "query_set")
      end
  end.

(** [a or b] on an optional string: [None] and the empty string are false. *)
Definition or_else (a : option string) (b : string) : string :=
  match a with
  | Some (String c s) => String c s
  | _ => b
  end.

(** The local function [get_verbose_name] of [export_type_xls]. *)
Definition get_verbose_name (meta : Options) (fieldname : string) : string :=
  let name :=
    filter (fun x => field_name x = fieldname) (fields meta) in
  match name with
  | f :: _ => upper (or_else (field_verbose_name f) (field_name f))
  | [] => upper fieldname
  end.

(** The header loop: [sht.write(0, j, get_verbose_name(fieldname))]. *)
Definition write_header (meta : Options) (display : list string)
    (sht : Sheet) : result Sheet :=
  for_each (fun sht '(j, fieldname) =>
              sheet_write sht 0 j (get_verbose_name meta fieldname))
           sht (enumerate display).

(** The inner loop for one record:
    [sht.write(i + 1, j, unicode(getattr(row, fieldname, '')))]. *)
Definition write_record (display : list string) (i : nat) (row : Row)
    (sht : Sheet) : result Sheet :=
  for_each (fun sht '(j, fieldname) =>
              sheet_write sht (i + 1) j
                (unicode (getattr_default row fieldname (Str ""))))
           sht (enumerate display).

Definition write_records (display : list string) (queryset : QuerySet)
    (sht : Sheet) : result Sheet :=
  for_each (fun sht '(i, row) => write_record display i row sht)
           sht (enumerate queryset).

(** [export_type_xls(self, request, response, extra_context)].  The
    [print] of the record count writes to standard output only and is left
    out.  [list_display[1:]] is [tail]. *)
Definition export_type_xls (self : ExportableAdmin) (request : Request)
    (response : Response) (extra_context : option ExtraContext)
    : result Response :=
  let meta := meta self in
  let modeladmin := self in
  let filename := lower (verbose_name_plural meta) +:+ ".xls" in
  let? queryset := response_query_set response in
  let response := HttpResponse "application/ms-excel" in
  let response :=
    set_header response "Content-Disposition"
      ("attachment;filename=" +:+ filename) in
  let? sht := add_sheet (verbose_name_plural meta) in
  let? sht := write_header meta (tail (list_display modeladmin)) sht in
  let? sht := write_records (tail (list_display modeladmin)) queryset sht in
  save_workbook [sht] response.

(** ** [get_urls] *)

(** ["%s_%s_export_%s" % (app, mod, name.lower())]. *)
Definition export_route_name (self : ExportableAdmin) (name : string)
    : string :=
  app_label (meta self) +:+ "_" +:+ module_name (meta self) +:+ "_export_"
  +:+ lower name.

(** [r'^export/%s$' % name.lower()]. *)
Definition export_regex (name : string) : string :=
  "^export/" +:+ lower name +:+ "$".

Definition format_url (self : ExportableAdmin) (fmt : string * string)
    : Route :=
  let '(format_name, delimiter) := fmt in
  url (export_regex format_name)
      AdminChangelistView
      (Some (export_route_name self format_name))
      {[ "extra_context" := {[ "export_delimiter" := CPy (Str delimiter) ]} ]}.

Definition type_url (self : ExportableAdmin) (export_type : string)
    : Route :=
  url (export_regex export_type)
      AdminChangelistView
      (Some (export_route_name self export_type))
      {[ "extra_context" := {[ "export_type" := CPy (Str (lower export_type)) ]} ]}.

(** [patterns('', *new_urls)]: with the empty prefix the entries are
    returned as they are. *)
Definition patterns (new_urls : list Route) : list Route := new_urls.

(** The local [new_urls] of [get_urls]: the list comprehension over
    [export_formats], then one [append] per entry of [export_types]. *)
Definition new_urls (self : ExportableAdmin) : list Route :=
  let new_urls := map (format_url self) (export_formats self) in
  foldl (fun new_urls export_type =>
           new_urls ++ [type_url self export_type])
        new_urls (export_types self).

Definition get_urls (self : ExportableAdmin) : list Route :=
  let urls := super_get_urls self in
  let my_urls := patterns (new_urls self) in
  my_urls ++ urls.

(** ** [get_export_buttons] and [changelist_view] *)

(** [extra_context and key in extra_context]: [None] and the empty
    dictionary are false. *)
Definition truthy (extra_context : option ExtraContext) : bool :=
  match extra_context with
  | Some d => negb (bool_decide (d = ∅))
  | None => false
  end.

Definition contains (extra_context : option ExtraContext) (key : string)
    : bool :=
  match extra_context with
  | Some d => bool_decide (is_Some (d !! key))
  | None => false
  end.

(** [extra_context[key]]; reached only after the two tests above. *)
Definition subscript (extra_context : option ExtraContext) (key : string)
    : result ctx_value :=
  match extra_context with
  | Some d =>
      match d !! key with
      | Some v => inr v
      | None => inl (KeyError key)
      end
  | None => inl (TypeError "'NoneType' object has no attribute '__getitem__'")
  end.

(** [extra_context or {}]. *)
Definition or_empty (extra_context : option ExtraContext) : ExtraContext :=
  match extra_context with
  | Some d => if truthy extra_context then d else ∅
  | None => ∅
  end.

(** What [getattr(self, name)] finds on an instance of the class. *)
Inductive attribute :=
| BoundMethod
    (f : Request -> Response -> option ExtraContext -> result Response)
| DataAttribute.

Section Host.

(** [django.core.urlresolvers.reverse], [defaultfilters.slugify] and
    [ModelAdmin.changelist_view]. *)
Variable reverse : string -> result string.
Variable slugify : string -> string.
Variable super_changelist_view :
  Request -> option ExtraContext -> result Response.

(** ["admin:%s_%s_export_%s" % (app, mod, name.lower())]. *)
Definition export_viewname (self : ExportableAdmin) (name : string)
    : string :=
  "admin:" +:+ app_label (meta self) +:+ "_" +:+ module_name (meta self)
  +:+ "_export_" +:+ lower name.

Definition get_export_buttons (self : ExportableAdmin) (request : Request)
    : result (list (string * string)) :=
  let? buttons :=
    comprehension
      (fun '(format_name, delimiter) =>
         let text := "Export " +:+ format_name in
         let? link := reverse (export_viewname self format_name) in
         inr (text, link))
      (export_formats self) in
  let? more :=
    comprehension
      (fun type_name =>
         let text := "Export " +:+ upper type_name in
         let? link := reverse (export_viewname self type_name) in
         inr (text, link))
      (export_types self) in
  inr (buttons ++ more).

(** [getattr(self, method_name)] for the names [changelist_view] can form,
    ["export_type_" + t].  The class defines [export_type_xls]; the name
    ["export_types"] is the class attribute, a tuple; no other attribute
    begins with ["export_type_"]. *)
Definition getattr_self (self : ExportableAdmin) (method_name : string)
    : result attribute :=
  if bool_decide (method_name = "export_type_xls")
  then inr (BoundMethod (export_type_xls self))
  else if bool_decide (method_name = "export_types")
  then inr DataAttribute
  else inl (AttributeError method_name).

(** ["export_type_%s" % v]: a button list is a Python list, whose text
    starts with a bracket. *)
Definition format_ctx_value (v : ctx_value) : string :=
  match v with
  | CPy v => unicode v
  | CButtons _ => "[...]"
  end.

(** [super(ExportableAdmin, self).changelist_view(request, extra_context)]. *)
Definition call_super (extra_context : option ExtraContext) : M Response :=
  let* request := get_request in
  let* _ := emit (SuperChangelistView request extra_context) in
  lift (super_changelist_view request extra_context).

(** [method(request, response, extra_context)]. *)
Definition call_attribute (method_name : string) (method : attribute)
    (response : Response) (extra_context : option ExtraContext)
    : M Response :=
  let* request := get_request in
  match method with
  | BoundMethod f =>
      let* _ :=
        emit (ExportTypeMethod method_name request response extra_context) in
      lift (f request response extra_context)
  | DataAttribute => lift (inl (TypeError "'tuple' object is not callable"))
  end.

Definition changelist_view (self : ExportableAdmin)
    (extra_context : option ExtraContext) : M Response :=
  if truthy extra_context && contains extra_context "export_delimiter" then
    let* _ := set_request_attr "is_export_request" (Bool true) in
    let* response := call_super extra_context in
    let response :=
      set_template_name response
        "django_exportable_admin/change_list_csv.html" in
    let response := set_header response "Content-Type" "text/csv" in
    let response :=
      set_header response "Content-Disposition"
        ("attachment; filename=" +:+ slugify (verbose_name (meta self))
         +:+ ".csv") in
    ret response
  else if truthy extra_context && contains extra_context "export_type" then
    let* _ := set_request_attr "is_export_request" (Bool true) in
    let* response := call_super extra_context in
    let* export_type := lift (subscript extra_context "export_type") in
    let method_name := "export_type_" +:+ format_ctx_value export_type in
    let* method := lift (getattr_self self method_name) in
    call_attribute method_name method response extra_context
  else
    let extra_context := or_empty extra_context in
    let* request := get_request in
    let* buttons := lift (get_export_buttons self request) in
    let extra_context :=
      <["export_buttons" := CButtons buttons]> extra_context in
    call_super (Some extra_context).

(** Run [changelist_view(request, extra_context)] from an empty trace. *)
Definition run_changelist_view (self : ExportableAdmin) (request : Request)
    (extra_context : option ExtraContext) : result Response * World :=
  changelist_view self extra_context
    {| the_request := request; trace := [] |}.

End Host.

(** ** Stand-ins for the host, used to run the code on examples *)

(** [slugify] on ASCII text: drop what is neither a word character,
    white space nor a hyphen, strip, lower-case, and turn each run of
    hyphens and white space into one hyphen. *)
Definition is_space (c : ascii) : bool :=
  let n := nat_of_ascii c in
  (n =? 32)%nat || ((9 <=? n)%nat && (n <=? 13)%nat).

Definition is_word (c : ascii) : bool :=
  let n := nat_of_ascii c in
  is_upper_letter c || is_lower_letter c
  || ((48 <=? n)%nat && (n <=? 57)%nat) || (n =? 95)%nat.

Definition is_hyphen (c : ascii) : bool := (nat_of_ascii c =? 45)%nat.

Fixpoint lstrip (l : list ascii) : list ascii :=
  match l with
  | c :: l' => if is_space c then lstrip l' else l
  | [] => []
  end.

Fixpoint hyphenate (in_run : bool) (l : list ascii) : list ascii :=
  match l with
  | [] => []
  | c :: l' =>
      if is_hyphen c || is_space c
      then (if in_run then hyphenate true l' else "-"%char :: hyphenate true l')
      else c :: hyphenate false l'
  end.

Definition ascii_slugify (value : string) : string :=
  let kept :=
    List.filter (fun c => is_word c || is_space c || is_hyphen c)
                (list_ascii_of_string value) in
  let stripped := rev (lstrip (rev (lstrip kept))) in
  string_of_list_ascii (hyphenate false (map lower_char stripped)).

(** ** Running examples *)

Module Examples.

Definition article_meta : Options :=
  {| app_label := "blog"; module_name := "article";
     verbose_name := "Blog Article";
     verbose_name_plural := "Blog Articles";
     fields := [ {| field_name := "id"; field_verbose_name := Some "ID" |};
                 {| field_name := "title";
                    field_verbose_name := Some "headline" |};
                 {| field_name := "views"; field_verbose_name := None |} ] |}.

(** Two of the parent's routes. *)
Definition host_routes : list Route :=
  [ url "^$" (HostView "changelist_view") (Some "blog_article_changelist") ∅;
    url "^add/$" (HostView "add_view") (Some "blog_article_add") ∅ ].

Definition display : list string := ["id"; "title"; "views"; "bogus"].

Definition xls_admin : ExportableAdmin :=
  XLSExportableAdmin article_meta display host_routes.

Definition csv_admin : ExportableAdmin :=
  CSVExportableAdmin article_meta display host_routes.

Definition multi_admin : ExportableAdmin :=
  MultiExportableAdmin article_meta display host_routes.

(** [MultiExportableAdmin] further subclassed with [export_types = ('csv',)]. *)
Definition clashing_admin : ExportableAdmin :=
  subclass article_meta display host_routes
    [("CSV", ","); ("Pipe", "|")] ["csv"].

(** A configuration whose two format names differ by letter case only. *)
Definition case_variant_admin : ExportableAdmin :=
  subclass article_meta display host_routes
    [("CSV", ","); ("csv", ",")] [].

Definition row1 : Row :=
  {[ "id" := Int 1; "title" := Str "Hello"; "views" := Int 42 ]}.

Definition row2 : Row :=
  {[ "id" := Int 2; "title" := Str "World"; "views" := None_ ]}.

Definition rendered : Response :=
  {| template_name := Some "admin/change_list.html";
     context_data := ContextDict {[ "cl" := ChangeList [row1; row2] ]};
     headers := {[ lower "Content-Type" :=
                     ("Content-Type", "text/html; charset=utf-8") ]};
     content := Unrendered |}.

(** A redirect: a plain response without [context_data]. *)
Definition redirect : Response :=
  {| template_name := None; context_data := NoContextAttr;
     headers := {[ lower "Location" := ("Location", "?e=1") ]};
     content := Raw "" |}.

Definition plain_request : Request := {[ "method" := Str "GET" ]}.

Definition export_request : Request :=
  setattr plain_request "is_export_request" (Bool true).

Definition host_view (response : Response) (request : Request)
    (extra_context : option ExtraContext) : result Response :=
  inr response.

Definition any_reverse (viewname : string) : result string :=
  inr ("/" +:+ viewname).

Definition csv_context : ExtraContext :=
  {[ "export_delimiter" := CPy (Str ",") ]}.

Definition xls_context : ExtraContext :=
  {[ "export_type" := CPy (Str "xls") ]}.

Definition both_context : ExtraContext :=
  <["export_type" := CPy (Str "xls")]> csv_context.

End Examples.

(** ** The documented behaviour, worded as the specification words it

    These definitions follow the specification's sentences, not the code;
    the theorems below compare them with the code. *)

(** The configured names, formats first. *)
Definition export_names (self : ExportableAdmin) : list string :=
  map fst (export_formats self) ++ export_types self.

(** The sheet inside a spreadsheet response. *)
Definition xls_sheet (r : result Response) : option Sheet :=
  match r with
  | inr resp =>
      match content resp with
      | Xls [sht] => Some sht
      | _ => None
      end
  | inl _ => None
  end.

(** "a header row from display-field labels": one header cell per entry of
    [list_display]. *)
Definition header_as_specified (self : ExportableAdmin) (sht : Sheet)
    : Prop :=
  forall j f, list_display self !! j = Some f ->
    cells sht !! (0, j) = Some (get_verbose_name (meta self) f).

(** "appended to the host's existing route table": the parent's routes come
    first and the export routes follow. *)
Definition appended_as_specified (self : ExportableAdmin) : Prop :=
  exists new,
    get_urls self = super_get_urls self ++ new /\
    length new = length (export_formats self) + length (export_types self).

(** The number of generated routes whose pattern is the one of [name]. *)
Definition routes_with_pattern_of (self : ExportableAdmin) (name : string)
    : nat :=
  length (filter (fun r => regex r = export_regex name) (new_urls self)).

(** "exactly one route with URL pattern export/<format-name>" for every
    configured name. *)
Definition one_route_per_name_as_specified (self : ExportableAdmin)
    : Prop :=
  forall name, name ∈ export_names self ->
    routes_with_pattern_of self name = 1.

(** "distinct configured formats/types yield distinct routes": entries at
    different positions with different names get different routes. *)
Definition distinct_names_distinct_routes_as_specified
    (self : ExportableAdmin) : Prop :=
  forall i j n m,
    export_names self !! i = Some n -> export_names self !! j = Some m ->
    n <> m -> new_urls self !! i <> new_urls self !! j.

(** "the button text is 'Export ' followed by the format or type name". *)
Definition button_texts_as_specified (self : ExportableAdmin)
    (buttons : list (string * string)) : Prop :=
  map fst buttons = map (String.append "Export ") (export_names self).

(** "Content-Disposition: attachment; filename=<model-plural>.xls". *)
Definition xls_disposition_as_specified (self : ExportableAdmin) : string :=
  "attachment; filename=" +:+ verbose_name_plural (meta self) +:+ ".xls".

(** A display field name that names no field of the model. *)
Definition unknown_field (self : ExportableAdmin) (f : string) : Prop :=
  forall fld, fld ∈ fields (meta self) -> field_name fld ≠ f.

(** "failures (bad field names) propagate as host-framework-level errors":
    a spreadsheet export whose display fields include an unknown name
    raises. *)
Definition bad_field_propagates (self : ExportableAdmin)
    (request : Request) (response : Response) : Prop :=
  forall f, f ∈ list_display self -> unknown_field self f ->
    exists e, export_type_xls self request response None = inl e.

(** ** Dispatching a route

    The host calls the view of a matched route as [view(request, **kwargs)]
    with the route's [kwargs]; for the export routes the view is
    [changelist_view] and the only keyword is [extra_context]. *)
Definition route_extra_context (r : Route) : option ExtraContext :=
  default_kwargs r !! "extra_context".

Definition dispatch (reverse : string -> result string)
    (slugify : string -> string)
    (super_changelist_view :
       Request -> option ExtraContext -> result Response)
    (self : ExportableAdmin) (request : Request) (r : Route)
    : result Response * World :=
  run_changelist_view reverse slugify super_changelist_view self request
    (route_extra_context r).

(** An admin whose limit is lower than the number of records at hand. *)
Definition Examples_small_limit_admin : ExportableAdmin :=
  {| meta := Examples.article_meta; list_display := Examples.display;
     super_get_urls := Examples.host_routes;
     export_queryset_limit := 1;
     export_formats := [];
     export_types := ["XLS"] |}.

(** A model whose plural name holds a slash, and a change list of 65536
    records. *)
Definition Examples_slash_admin : ExportableAdmin :=
  XLSExportableAdmin
    {| app_label := "blog"; module_name := "comment";
       verbose_name := "comment";
       verbose_name_plural := "Posts/Comments"; fields := [] |}
    Examples.display Examples.host_routes.

Definition Examples_many_records : QuerySet := repeat Examples.row1 65536.

Definition Examples_long_list : Response :=
  {| template_name := Some "admin/change_list.html";
     context_data :=
       ContextDict {[ "cl" := ChangeList Examples_many_records ]};
     headers := ∅; content := Unrendered |}.

(** A resolver that knows no export route. *)
Definition Examples_no_reverse (viewname : string) : result string :=
  inl (NoReverseMatch viewname).

(** ** The sheet when [xlwt] accepts every call

    The three loops of [export_type_xls] with every write accepted. *)
Definition header_written (meta : Options) (display : list string)
    (sht : Sheet) : Sheet :=
  foldl (fun sht '(j, fieldname) =>
           put_cell sht 0 j (get_verbose_name meta fieldname))
        sht (enumerate display).

Definition record_written (display : list string) (i : nat) (row : Row)
    (sht : Sheet) : Sheet :=
  foldl (fun sht '(j, fieldname) =>
           put_cell sht (i + 1) j
             (unicode (getattr_default row fieldname (Str ""))))
        sht (enumerate display).

Definition records_written (display : list string) (queryset : QuerySet)
    (sht : Sheet) : Sheet :=
  foldl (fun sht '(i, row) => record_written display i row sht)
        sht (enumerate queryset).

(** Conditions under which [xlwt] accepts every call that
    [export_type_xls] makes for the records [qs]: the plural name is a
    valid sheet name, the records fit below the header in the rows of the
    format, the display fields after the first fit in its columns, and no
    label or value is longer than a cell can hold. *)
Definition xlwt_accepts (self : ExportableAdmin) (qs : QuerySet) : bool :=
  let display := tail (list_display self) in
  valid_sheet_name (verbose_name_plural (meta self))
  && (length qs <=? max_row)%nat
  && (length display <=? max_column + 1)%nat
  && forallb (fun f => short_text (get_verbose_name (meta self) f)) display
  && forallb (fun row =>
                forallb (fun f =>
                           short_text
                             (unicode (getattr_default row f (Str ""))))
                        display) qs.

(** * Proofs *)

(** ** Strings *)

Lemma app_inj_l (p a b : string) : p +:+ a = p +:+ b -> a = b.
Proof. induction p as [|c p IH]; simpl; [done | intros [= H]; auto]. Qed.

Lemma app_char_inj_r (c : ascii) (a b : string) :
  a +:+ String c "" = b +:+ String c "" -> a = b.
Proof.
  revert b. induction a as [|x a IH]; intros [|y b]; simpl; try done.
  - intros [= -> H]. by destruct b.
  - intros [= -> H]. by destruct a.
  - intros [= -> H]. f_equal. by apply IH.
Qed.

Lemma export_regex_inj (a b : string) :
  export_regex a = export_regex b <-> lower a = lower b.
Proof.
  unfold export_regex. split; [| by intros ->].
  intros H. apply app_inj_l in H. by apply app_char_inj_r in H.
Qed.

(** ** [get_urls] *)

Lemma foldl_snoc {A B} (f : B -> A) (l : list B) (acc : list A) :
  foldl (fun acc x => acc ++ [f x]) acc l = acc ++ map f l.
Proof.
  revert acc. induction l as [|x l IH]; intros acc; simpl.
  - by rewrite app_nil_r.
  - rewrite IH. by rewrite <- app_assoc.
Qed.

Lemma new_urls_eq (self : ExportableAdmin) :
  new_urls self =
  map (format_url self) (export_formats self)
  ++ map (type_url self) (export_types self).
Proof. unfold new_urls. apply foldl_snoc. Qed.

Lemma new_urls_length (self : ExportableAdmin) :
  length (new_urls self) =
  length (export_formats self) + length (export_types self).
Proof. rewrite new_urls_eq, length_app, !length_map. done. Qed.

Lemma new_urls_format (self : ExportableAdmin) i fmt :
  export_formats self !! i = Some fmt ->
  new_urls self !! i = Some (format_url self fmt).
Proof.
  intros H. rewrite new_urls_eq, lookup_app_l.
  - by rewrite list_lookup_fmap, H.
  - rewrite length_map. by eapply lookup_lt_Some.
Qed.

Lemma new_urls_type (self : ExportableAdmin) i t :
  export_types self !! i = Some t ->
  new_urls self !! (length (export_formats self) + i) =
  Some (type_url self t).
Proof.
  intros H. rewrite new_urls_eq, lookup_app_r; rewrite length_map; [| lia].
  replace (length (export_formats self) + i - length (export_formats self))
    with i by lia.
  by rewrite list_lookup_fmap, H.
Qed.

Lemma regex_format_url self fmt :
  regex (format_url self fmt) = export_regex (fst fmt).
Proof. by destruct fmt. Qed.

Lemma count_pattern_map {A} (f : A -> Route) (g : A -> string) (n : string)
    (l : list A) :
  (forall x, regex (f x) = export_regex (g x)) ->
  length (filter (fun r => regex r = export_regex n) (map f l)) =
  length (filter (fun m => lower m = lower n) (map g l)).
Proof.
  intros Hf. induction l as [|x l IH]; [done |]. simpl.
  rewrite !filter_cons.
  destruct (decide (regex (f x) = export_regex n)) as [E|E];
    destruct (decide (lower (g x) = lower n)) as [E'|E']; simpl.
  - by rewrite IH.
  - rewrite Hf in E. by apply export_regex_inj in E.
  - exfalso. apply E. rewrite Hf. by apply export_regex_inj.
  - done.
Qed.

Lemma routes_with_pattern_count (self : ExportableAdmin) (n : string) :
  routes_with_pattern_of self n =
  length (filter (fun m => lower m = lower n) (export_names self)).
Proof.
  unfold routes_with_pattern_of, export_names.
  rewrite new_urls_eq, !filter_app, !length_app. f_equal.
  - apply count_pattern_map, regex_format_url.
  - rewrite <- (map_id (export_types self)) at 2.
    by apply count_pattern_map.
Qed.

(** C3, as worded, fails: [CSVExportableAdmin]'s table starts with the
    export route, so it is not the parent's table followed by new routes. *)
Lemma get_urls_not_appended :
  ~ appended_as_specified Examples.csv_admin.
Proof.
  intros (new & H & _).
  apply (f_equal (fun l => regex <$> head l)) in H.
  vm_compute in H. discriminate.
Qed.

(** C3 (amended).  [get_urls] returns the generated export routes followed
    by the parent's existing routes: the export routes are put in front of
    the existing table, one per configured format (in order) and then one
    per configured type (in order). *)
Theorem get_urls_prepends_export_routes (self : ExportableAdmin) :
  exists new,
    get_urls self = new ++ super_get_urls self /\
    length new = length (export_formats self) + length (export_types self) /\
    (forall i fmt, export_formats self !! i = Some fmt ->
       new !! i = Some (format_url self fmt)) /\
    (forall i t, export_types self !! i = Some t ->
       new !! (length (export_formats self) + i) = Some (type_url self t)).
Proof.
  exists (new_urls self). split; [reflexivity |].
  split; [apply new_urls_length |].
  split; [apply new_urls_format | apply new_urls_type].
Qed.

(** C7, as worded, fails.  With formats CSV and Pipe and the type csv, the
    pattern of "CSV" belongs to two generated routes; and with the formats
    CSV and csv (same delimiter) two entries with different names get one
    and the same route. *)
Lemma clashing_names_share_a_pattern :
  ~ one_route_per_name_as_specified Examples.clashing_admin /\
  ~ one_route_per_name_as_specified Examples.case_variant_admin /\
  ~ distinct_names_distinct_routes_as_specified Examples.case_variant_admin.
Proof.
  split; [| split].
  - intros H. specialize (H "CSV").
    assert (Hin : "CSV" ∈ export_names Examples.clashing_admin)
      by (vm_compute; left).
    apply H in Hin. vm_compute in Hin. discriminate.
  - intros H. specialize (H "CSV").
    assert (Hin : "CSV" ∈ export_names Examples.case_variant_admin)
      by (vm_compute; left).
    apply H in Hin. vm_compute in Hin. discriminate.
  - intros H. apply (H 0 1 "CSV" "csv"); [done | done | done |].
    vm_compute. reflexivity.
Qed.

Lemma new_urls_regex (self : ExportableAdmin) :
  map regex (new_urls self) = map export_regex (export_names self).
Proof.
  unfold export_names. rewrite new_urls_eq, !map_app, !map_map.
  f_equal. apply map_ext. by intros [n d].
Qed.

Lemma new_urls_route_name (self : ExportableAdmin) :
  map route_name (new_urls self)
  = map (fun n => Some (export_route_name self n)) (export_names self).
Proof.
  unfold export_names. rewrite new_urls_eq, !map_app, !map_map.
  f_equal. apply map_ext. by intros [n d].
Qed.

Lemma new_urls_entry (self : ExportableAdmin) i r n :
  new_urls self !! i = Some r -> export_names self !! i = Some n ->
  regex r = export_regex n /\
  route_name r = Some (export_route_name self n).
Proof.
  intros Hr Hn. split.
  - assert (H : map regex (new_urls self) !! i = Some (regex r))
      by (by rewrite list_lookup_fmap, Hr).
    rewrite new_urls_regex, list_lookup_fmap, Hn in H. by injection H.
  - assert (H : map route_name (new_urls self) !! i = Some (route_name r))
      by (by rewrite list_lookup_fmap, Hr).
    rewrite new_urls_route_name, list_lookup_fmap, Hn in H.
    by injection H.
Qed.

(** C7 (amended).  Every configured format and type gets one route, at its
    own position (formats first), whose pattern is [^export/<name
    lower-cased>$]; there are as many generated routes as entries; the
    number of generated routes carrying the pattern of a name is the number
    of configured names equal to it up to letter case; and two entries
    whose names differ after lower-casing get routes with different
    patterns and different route names. *)
Theorem one_route_per_entry (self : ExportableAdmin) :
  length (new_urls self) =
    length (export_formats self) + length (export_types self) /\
  (forall i n d, export_formats self !! i = Some (n, d) ->
     exists r, new_urls self !! i = Some r /\
               regex r = "^export/" +:+ lower n +:+ "$") /\
  (forall i t, export_types self !! i = Some t ->
     exists r, new_urls self !! (length (export_formats self) + i) = Some r /\
               regex r = "^export/" +:+ lower t +:+ "$") /\
  (forall n, routes_with_pattern_of self n =
     length (filter (fun m => lower m = lower n) (export_names self))) /\
  (forall i j n m ri rj,
     export_names self !! i = Some n -> export_names self !! j = Some m ->
     new_urls self !! i = Some ri -> new_urls self !! j = Some rj ->
     lower n <> lower m ->
     regex ri <> regex rj /\ route_name ri <> route_name rj).
Proof.
  split; [apply new_urls_length |]. split; [| split; [| split]].
  - intros i n d H. eexists. split; [by apply new_urls_format |]. done.
  - intros i t H. eexists. split; [by apply new_urls_type |]. done.
  - apply routes_with_pattern_count.
  - intros i j n m ri rj Hn Hm Hi Hj Hne.
    destruct (new_urls_entry self i ri n Hi Hn) as [-> ->].
    destruct (new_urls_entry self j rj m Hj Hm) as [-> ->].
    split.
    + intros H. by apply export_regex_inj in H.
    + intros [= H]. unfold export_route_name in H.
      do 4 apply app_inj_l in H. done.
Qed.

Lemma one_route_per_entry_witness :
  regex (format_url Examples.multi_admin ("CSV", ","))
    <> regex (format_url Examples.multi_admin ("Pipe", "|"))
  /\ routes_with_pattern_of Examples.multi_admin "Pipe" = 1.
Proof.
  destruct (one_route_per_entry Examples.multi_admin)
    as (_ & _ & _ & Hcount & Hdistinct).
  split.
  - destruct (Hdistinct 0 1 "CSV" "Pipe"
                (format_url Examples.multi_admin ("CSV", ","))
                (format_url Examples.multi_admin ("Pipe", "|")))
      as [Hre _]; [reflexivity | reflexivity | reflexivity | reflexivity
                  | discriminate |].
    exact Hre.
  - rewrite Hcount. reflexivity.
Defined.

(** ** List comprehensions *)

Lemma comprehension_ext {A B} (f g : A -> result B) (l : list A) :
  (forall x, f x = g x) -> comprehension f l = comprehension g l.
Proof.
  intros H. induction l as [|x l IH]; [done |].
  simpl. by rewrite H, IH.
Qed.

Lemma comprehension_total {A B} (g : A -> B) (l : list A) :
  comprehension (fun x => inr (g x)) l = inr (map g l).
Proof. induction l as [|x l IH]; [done |]. simpl. by rewrite IH. Qed.

Lemma comprehension_ok {A B} (f : A -> result B) (l : list A) :
  (forall x, x ∈ l -> is_ok (f x) = true) ->
  exists ys, comprehension f l = inr ys.
Proof.
  induction l as [|x l IH]; intros H; simpl; [by eexists |].
  destruct (f x) as [e|y] eqn:E.
  - specialize (H x). rewrite E in H. simpl in H.
    discriminate H. by left.
  - destruct IH as [ys ->]; [| by eexists].
    intros z Hz. apply H. by right.
Qed.

Lemma comprehension_lookup {A B} (f : A -> result B) (l : list A) ys :
  comprehension f l = inr ys ->
  length ys = length l /\
  forall i x, l !! i = Some x -> exists y, f x = inr y /\ ys !! i = Some y.
Proof.
  revert ys. induction l as [|x l IH]; intros ys; simpl.
  - intros [= <-]. split; [done |]. by intros i x'.
  - destruct (f x) as [e|y] eqn:E; [done |].
    destruct (comprehension f l) as [e|ys'] eqn:E'; [done |].
    intros [= <-]. destruct (IH ys' eq_refl) as [Hlen Hl].
    split; [simpl; by rewrite Hlen |].
    intros [|i] x'; simpl.
    + intros [= <-]. by exists y.
    + apply Hl.
Qed.

(** ** [get_paginator] *)

(** C1.  On a request that carries the attribute [is_export_request],
    [get_paginator] builds the paginator with [export_queryset_limit] per
    page, no orphans and an empty first page allowed, whatever [per_page],
    [orphans] and [allow_empty_first_page] it was given; on any other
    request it builds it with exactly the arguments given.  The limit of
    the class is 10000. *)
Theorem get_paginator_export_limit (self : ExportableAdmin)
    (request : Request) (queryset : QuerySet) (per_page orphans : Z)
    (allow_empty_first_page : bool) :
  (hasattr request "is_export_request" = true ->
     get_paginator self request queryset per_page orphans
       allow_empty_first_page
     = paginator queryset (export_queryset_limit self) 0 true) /\
  (hasattr request "is_export_request" = false ->
     get_paginator self request queryset per_page orphans
       allow_empty_first_page
     = paginator queryset per_page orphans allow_empty_first_page) /\
  (forall m ld host_urls,
     export_queryset_limit (ExportableAdmin_ m ld host_urls) = 10000%Z).
Proof.
  unfold get_paginator. repeat split.
  - by intros ->.
  - by intros ->.
Qed.

Lemma get_paginator_export_limit_witness :
  get_paginator Examples.csv_admin Examples.export_request
    [Examples.row1] 100 5 false
  = paginator [Examples.row1] 10000 0 true
  /\ get_paginator Examples.csv_admin Examples.plain_request
       [Examples.row1] 100 5 false
     = paginator [Examples.row1] 100 5 false.
Proof.
  split.
  - apply (proj1 (get_paginator_export_limit Examples.csv_admin
                    Examples.export_request [Examples.row1] 100 5 false)).
    reflexivity.
  - apply (proj1 (proj2 (get_paginator_export_limit Examples.csv_admin
                    Examples.plain_request [Examples.row1] 100 5 false))).
    reflexivity.
Defined.

(** ** [get_export_buttons] *)

Section Buttons.
Variable reverse : string -> result string.

Lemma get_export_buttons_inv (self : ExportableAdmin) (request : Request)
    buttons :
  get_export_buttons reverse self request = inr buttons ->
  length buttons
    = length (export_formats self) + length (export_types self) /\
  (forall i n d, export_formats self !! i = Some (n, d) ->
     exists u, reverse (export_viewname self n) = inr u /\
               buttons !! i = Some ("Export " +:+ n, u)) /\
  (forall i t, export_types self !! i = Some t ->
     exists u, reverse (export_viewname self t) = inr u /\
               buttons !! (length (export_formats self) + i)
               = Some ("Export " +:+ upper t, u)).
Proof.
  unfold get_export_buttons, rbind.
  destruct (comprehension _ (export_formats self)) as [e|bs] eqn:E1; [done |].
  destruct (comprehension _ (export_types self)) as [e|ms] eqn:E2; [done |].
  intros [= <-].
  apply comprehension_lookup in E1 as [L1 H1].
  apply comprehension_lookup in E2 as [L2 H2].
  split; [rewrite length_app; lia |]. split.
  - intros i n d H. destruct (H1 _ _ H) as (y & Hy & Hi).
    destruct (reverse (export_viewname self n)) as [e|u]; [done |].
    injection Hy as <-. exists u. split; [done |].
    rewrite lookup_app_l; [done |]. by eapply lookup_lt_Some.
  - intros i t H. destruct (H2 _ _ H) as (y & Hy & Hi).
    destruct (reverse (export_viewname self t)) as [e|u]; [done |].
    injection Hy as <-. exists u. split; [done |].
    rewrite lookup_app_r; [| lia].
    by replace (length (export_formats self) + i - length bs) with i by lia.
Qed.

Lemma get_export_buttons_ok (self : ExportableAdmin) (request : Request) :
  forallb (fun n => is_ok (reverse (export_viewname self n)))
    (export_names self) = true ->
  exists buttons, get_export_buttons reverse self request = inr buttons.
Proof.
  intros H. rewrite forallb_forall in H.
  unfold get_export_buttons, rbind.
  destruct (comprehension_ok
    (fun '(format_name, delimiter) =>
       match reverse (export_viewname self format_name) with
       | inl e => inl e
       | inr link => inr ("Export " +:+ format_name, link)
       end) (export_formats self)) as [bs ->].
  { intros [n d] Hin. specialize (H n).
    destruct (reverse (export_viewname self n)); [| done].
    apply H. unfold export_names. apply in_or_app. left.
    apply in_map_iff. exists (n, d). split; [done |].
    by apply list_elem_of_In. }
  destruct (comprehension_ok
    (fun type_name =>
       match reverse (export_viewname self type_name) with
       | inl e => inl e
       | inr link => inr ("Export " +:+ upper type_name, link)
       end) (export_types self)) as [ms ->].
  { intros t Hin. specialize (H t).
    destruct (reverse (export_viewname self t)); [| done].
    apply H. unfold export_names. apply in_or_app. right.
    by apply list_elem_of_In. }
  by eexists.
Qed.

End Buttons.

(** C6, as worded, fails: the button of [XLSExportableAdmin] reads
    "Export XLS", not "Export " followed by the configured name "xls". *)
Lemma xls_button_text_is_upper_case :
  exists buttons,
    get_export_buttons Examples.any_reverse Examples.xls_admin
      Examples.plain_request = inr buttons /\
    map fst buttons = ["Export XLS"] /\
    ~ button_texts_as_specified Examples.xls_admin buttons.
Proof.
  eexists. split; [vm_compute; reflexivity |].
  split; [reflexivity |].
  unfold button_texts_as_specified. vm_compute. discriminate.
Qed.

(** C6 (amended).  When the host resolves the route name of every
    configured format and type, [get_export_buttons] returns exactly one
    (text, link) pair per configured format, in order, followed by one per
    configured type, in order.  The text of a format's button is "Export "
    followed by the format name as configured; the text of a type's button
    is "Export " followed by the type name in upper case; the link is what
    the host resolves for the entry's route name. *)
Theorem get_export_buttons_one_per_entry
    (reverse : string -> result string) (self : ExportableAdmin)
    (request : Request) :
  forallb (fun n => is_ok (reverse (export_viewname self n)))
    (export_names self) = true ->
  exists buttons,
    get_export_buttons reverse self request = inr buttons /\
    length buttons
      = length (export_formats self) + length (export_types self) /\
    (forall i n d, export_formats self !! i = Some (n, d) ->
       exists u, reverse (export_viewname self n) = inr u /\
                 buttons !! i = Some ("Export " +:+ n, u)) /\
    (forall i t, export_types self !! i = Some t ->
       exists u, reverse (export_viewname self t) = inr u /\
                 buttons !! (length (export_formats self) + i)
                 = Some ("Export " +:+ upper t, u)).
Proof.
  intros H.
  destruct (get_export_buttons_ok reverse self request H) as [bs Hbs].
  exists bs. split; [done |].
  by apply get_export_buttons_inv with (request := request).
Qed.

Lemma get_export_buttons_one_per_entry_witness :
  exists buttons,
    get_export_buttons Examples.any_reverse Examples.clashing_admin
      Examples.plain_request = inr buttons /\
    length buttons = 3.
Proof.
  destruct (get_export_buttons_one_per_entry Examples.any_reverse
              Examples.clashing_admin Examples.plain_request)
    as (bs & Hbs & Hlen & _).
  - reflexivity.
  - exists bs. split; [exact Hbs | exact Hlen].
Defined.

(** ** Buttons against routes *)

Lemma export_viewname_route_name (self : ExportableAdmin) (n : string) :
  export_viewname self n = "admin:" +:+ export_route_name self n.
Proof. reflexivity. Qed.

Lemma export_name_registered (self : ExportableAdmin) (n : string) :
  In n (export_names self) ->
  exists r, In r (get_urls self) /\
            route_name r = Some (export_route_name self n).
Proof.
  unfold export_names, get_urls, patterns. rewrite new_urls_eq.
  intros H. apply in_app_or in H as [H|H].
  - apply in_map_iff in H as ([n' d] & <- & H).
    exists (format_url self (n', d)). split; [| done].
    apply in_or_app. left. apply in_or_app. left. by apply in_map.
  - exists (type_url self n). split; [| done].
    apply in_or_app. left. apply in_or_app. right. by apply in_map.
Qed.

(** C9.  The name that [get_export_buttons] hands to [reverse] for an
    entry is the name under which [get_urls] registers that entry's route,
    qualified by the admin namespace ["admin:"]: resolving names by
    identity, the links of the buttons are, position by position, the
    qualified names of the generated routes.  So the name of every button
    of a configuration is the name of a route that [get_urls] returns for
    the same configuration.  (Whether the host then builds a URL for that
    name is the host's matter: it also depends on the route's pattern.) *)
Theorem button_names_are_registered (self : ExportableAdmin)
    (request : Request) :
  (exists buttons,
     get_export_buttons (fun viewname => inr viewname) self request
       = inr buttons /\
     map (fun b => Some (snd b)) buttons
       = map (fun r => String.append "admin:" <$> route_name r)
             (new_urls self)) /\
  (forall n, n ∈ export_names self ->
     exists r,
       r ∈ get_urls self /\
       route_name r = Some (export_route_name self n) /\
       export_viewname self n = "admin:" +:+ export_route_name self n).
Proof.
  split.
  - unfold get_export_buttons.
    rewrite (comprehension_ext _
      (fun x => inr ("Export " +:+ fst x, export_viewname self (fst x))))
      by (by intros [n d]).
    rewrite comprehension_total. simpl.
    rewrite (comprehension_total
      (fun t => ("Export " +:+ upper t, export_viewname self t))). simpl.
    eexists. split; [reflexivity |].
    rewrite new_urls_eq, !map_app, !map_map. f_equal.
    apply map_ext. by intros [n d].
  - intros n Hn. apply list_elem_of_In in Hn.
    destruct (export_name_registered self n Hn) as (r & Hr & Hname).
    exists r. split; [by apply list_elem_of_In |]. split; [done |].
    apply export_viewname_route_name.
Qed.

Lemma button_names_are_registered_witness :
  exists r,
    r ∈ get_urls Examples.multi_admin /\
    route_name r = Some "blog_article_export_pipe" /\
    export_viewname Examples.multi_admin "Pipe"
    = "admin:blog_article_export_pipe".
Proof.
  destruct (button_names_are_registered Examples.multi_admin
              Examples.plain_request) as [_ H].
  apply (H "Pipe"). apply list_elem_of_In. simpl. tauto.
Defined.

(** ** Writing the sheet *)

Section SheetRow.
Context {A : Type} (r : nat) (g : A -> string).

(** One pass of [for j, x in enumerate(l): sht.write(r, j, g(x))], with the
    count starting at [k]. *)
Let write_row (k : nat) (l : list A) (sht : Sheet) : Sheet :=
  foldl (fun sht '(j, x) => put_cell sht r j (g x)) sht
        (enumerate_from k l).

Lemma write_row_other_row k l sht r' c :
  r' ≠ r -> cells (write_row k l sht) !! (r', c) = cells sht !! (r', c).
Proof.
  intros Hr. revert k sht. induction l as [|x l IH]; intros k sht; [done |].
  unfold write_row in *. simpl. rewrite IH. simpl.
  apply lookup_insert_ne. congruence.
Qed.

Lemma write_row_before k l sht c :
  c < k -> cells (write_row k l sht) !! (r, c) = cells sht !! (r, c).
Proof.
  revert k sht. induction l as [|x l IH]; intros k sht Hc; [done |].
  unfold write_row in *. simpl. rewrite IH by lia. simpl.
  apply lookup_insert_ne. intros [= ?]. lia.
Qed.

Lemma write_row_lookup k l sht j :
  cells (write_row k l sht) !! (r, k + j) =
  match l !! j with
  | Some x => Some (g x)
  | None => cells sht !! (r, k + j)
  end.
Proof.
  revert k sht j. induction l as [|x l IH]; intros k sht j; [done |].
  unfold write_row in *. simpl. destruct j as [|j]; simpl.
  - rewrite Nat.add_0_r.
    change (foldl _ ?s (enumerate_from (S k) l))
      with (write_row (S k) l s).
    rewrite write_row_before by lia. simpl. apply lookup_insert_eq.
  - replace (k + S j) with (S k + j) by lia. rewrite IH.
    destruct (l !! j); [done |]. simpl.
    apply lookup_insert_ne. intros [= ?]. lia.
Qed.

Lemma write_row_name k l sht :
  sheet_name (write_row k l sht) = sheet_name sht.
Proof.
  revert k sht. induction l as [|x l IH]; intros k sht; [done |].
  unfold write_row in *. simpl. by rewrite IH.
Qed.

End SheetRow.

Lemma header_written_lookup (meta : Options) (display : list string)
    (sht : Sheet) r j :
  cells (header_written meta display sht) !! (r, j) =
  match r, display !! j with
  | 0, Some f => Some (get_verbose_name meta f)
  | _, _ => cells sht !! (r, j)
  end.
Proof.
  unfold header_written, enumerate. destruct r as [|r].
  - apply (write_row_lookup 0 (get_verbose_name meta) 0 display sht j).
  - by apply (write_row_other_row 0 (get_verbose_name meta) 0 display sht).
Qed.

Lemma record_written_lookup (display : list string) (i : nat) (row : Row)
    (sht : Sheet) r j :
  cells (record_written display i row sht) !! (r, j) =
  match decide (r = i + 1), display !! j with
  | left _, Some f => Some (unicode (getattr_default row f (Str "")))
  | _, _ => cells sht !! (r, j)
  end.
Proof.
  unfold record_written, enumerate. destruct (decide (r = i + 1)) as [->|Hr].
  - apply (write_row_lookup (i + 1)
             (fun f => unicode (getattr_default row f (Str "")))
             0 display sht j).
  - by apply (write_row_other_row (i + 1)
                (fun f => unicode (getattr_default row f (Str "")))
                0 display sht).
Qed.

Lemma records_written_from_lookup (display : list string) (k : nat)
    (queryset : QuerySet) (sht : Sheet) r j :
  cells (foldl (fun sht '(i, row) => record_written display i row sht)
               sht (enumerate_from k queryset)) !! (r, j) =
  match queryset !! (r - (k + 1)), display !! j with
  | Some row, Some f =>
      if decide (k + 1 <= r)%nat
      then Some (unicode (getattr_default row f (Str "")))
      else cells sht !! (r, j)
  | _, _ => cells sht !! (r, j)
  end.
Proof.
  revert k sht. induction queryset as [|row qs IH]; intros k sht.
  - simpl. by destruct (display !! j).
  - simpl. rewrite IH, record_written_lookup.
    destruct (decide (r = k + 1)) as [->|Hne].
    + replace (k + 1 - (S k + 1)) with 0 by lia.
      replace (k + 1 - (k + 1)) with 0 by lia. simpl.
      destruct (qs !! 0), (display !! j); try done;
        repeat case_decide; try done; lia.
    + destruct (decide (k + 1 <= r)%nat) as [Hle|Hgt].
      * replace (r - (k + 1)) with (S (r - (S k + 1))) by lia. simpl.
        destruct (qs !! (r - S (k + 1))), (display !! j); try done.
        case_decide; [done | lia].
      * replace (r - (S k + 1)) with 0 by lia.
        replace (r - (k + 1)) with 0 by lia. simpl.
        destruct (qs !! 0), (display !! j); try done.
        case_decide; [lia | done].
Qed.

Lemma records_written_lookup (display : list string) (queryset : QuerySet)
    (sht : Sheet) r j :
  cells (records_written display queryset sht) !! (r, j) =
  match r with
  | 0 => cells sht !! (r, j)
  | S i =>
      match queryset !! i, display !! j with
      | Some row, Some f =>
          Some (unicode (getattr_default row f (Str "")))
      | _, _ => cells sht !! (r, j)
      end
  end.
Proof.
  unfold records_written, enumerate. rewrite records_written_from_lookup.
  destruct r as [|i]; simpl.
  - destruct (queryset !! 0), (display !! j); try done.
  - rewrite Nat.sub_0_r.
    destruct (queryset !! i), (display !! j); done.
Qed.

(** ** When [xlwt] accepts the writes *)

Lemma sheet_write_accepted (sht : Sheet) (r c : nat) (label : string) :
  (r <= max_row)%nat -> (c <= max_column)%nat ->
  cells sht !! (r, c) = None ->
  sheet_write sht r c label = inr (put_cell sht r c label).
Proof.
  intros Hr Hc Hfree. unfold sheet_write.
  rewrite (proj2 (Nat.ltb_ge max_row r)) by done.
  rewrite (proj2 (Nat.ltb_ge max_column c)) by done.
  rewrite Hfree. rewrite bool_decide_eq_false_2; [done |].
  by intros [? ?].
Qed.

Lemma sheet_write_past_last_row (sht : Sheet) (r c : nat) (label : string) :
  (max_row < r)%nat ->
  sheet_write sht r c label
  = inl (ValueError "row index not allowed by .xls format").
Proof.
  intros Hr. unfold sheet_write.
  by rewrite (proj2 (Nat.ltb_lt max_row r)) by done.
Qed.

Lemma for_each_app {A S} (body : S -> A -> result S) (s : S)
    (l1 l2 : list A) :
  for_each body s (l1 ++ l2) =
  match for_each body s l1 with
  | inl e => inl e
  | inr s' => for_each body s' l2
  end.
Proof.
  revert s. induction l1 as [|x l1 IH]; intros s; [done |].
  cbn [for_each app]. destruct (body s x) as [e|s']; [done | apply IH].
Qed.

Lemma enumerate_from_app {A} (k : nat) (l1 l2 : list A) :
  enumerate_from k (l1 ++ l2) =
  enumerate_from k l1 ++ enumerate_from (k + length l1) l2.
Proof.
  revert k. induction l1 as [|x l1 IH]; intros k.
  - cbn [enumerate_from app length]. by rewrite Nat.add_0_r.
  - cbn [enumerate_from app length]. rewrite IH. do 3 f_equal. lia.
Qed.

Section RowAccepted.
Context {A : Type} (r : nat) (g : A -> string).

Lemma write_row_accepted k l sht :
  (r <= max_row)%nat ->
  (k + length l <= max_column + 1)%nat ->
  (forall c, (k <= c)%nat -> cells sht !! (r, c) = None) ->
  for_each (fun sht '(j, x) => sheet_write sht r j (g x)) sht
    (enumerate_from k l)
  = inr (foldl (fun sht '(j, x) => put_cell sht r j (g x)) sht
           (enumerate_from k l)).
Proof.
  intros Hr. revert k sht.
  induction l as [|x l IH]; intros k sht Hk Hfree; [done |].
  cbn [length] in Hk. cbn [for_each enumerate_from foldl].
  rewrite sheet_write_accepted; [| done | lia | apply Hfree; lia].
  apply IH; [lia |]. intros c Hc. cbn [put_cell cells].
  rewrite lookup_insert_ne; [apply Hfree; lia |].
  intros [= ?]. lia.
Qed.

End RowAccepted.

Lemma write_header_accepted (meta : Options) (display : list string)
    (sht : Sheet) :
  (length display <= max_column + 1)%nat ->
  (forall c, cells sht !! (0, c) = None) ->
  write_header meta display sht = inr (header_written meta display sht).
Proof.
  intros Hc Hfree. unfold write_header, header_written, enumerate.
  apply (write_row_accepted 0 (get_verbose_name meta)); [lia | lia | auto].
Qed.

Lemma write_record_accepted (display : list string) (i : nat) (row : Row)
    (sht : Sheet) :
  (i + 1 <= max_row)%nat ->
  (length display <= max_column + 1)%nat ->
  (forall c, cells sht !! (i + 1, c) = None) ->
  write_record display i row sht = inr (record_written display i row sht).
Proof.
  intros Hr Hc Hfree. unfold write_record, record_written, enumerate.
  apply (write_row_accepted (i + 1)
           (fun f => unicode (getattr_default row f (Str ""))));
    [lia | lia | auto].
Qed.

Lemma write_records_from_accepted (display : list string) (k : nat)
    (qs : QuerySet) (sht : Sheet) :
  (k + length qs <= max_row)%nat ->
  (length display <= max_column + 1)%nat ->
  (forall r c, (k + 1 <= r)%nat -> cells sht !! (r, c) = None) ->
  for_each (fun sht '(i, row) => write_record display i row sht) sht
    (enumerate_from k qs)
  = inr (foldl (fun sht '(i, row) => record_written display i row sht) sht
           (enumerate_from k qs)).
Proof.
  intros Hr Hc. revert k sht Hr.
  induction qs as [|row qs IH]; intros k sht Hr Hfree; [done |].
  cbn [length] in Hr. cbn [for_each enumerate_from foldl].
  rewrite write_record_accepted; [| lia | done | intros c; apply Hfree; lia].
  apply IH; [lia |]. intros r c Hrc.
  rewrite record_written_lookup.
  destruct (decide (r = k + 1)) as [->|Hne]; [lia |].
  apply Hfree. lia.
Qed.

Lemma save_workbook_accepted (sht : Sheet) (r : Response) :
  (forall k v, cells sht !! k = Some v -> short_text v = true) ->
  save_workbook [sht] r = inr (stored_workbook [sht] r).
Proof.
  intros H. unfold save_workbook. cbn [forallb]. rewrite andb_true_r.
  rewrite (proj2 (forallb_forall _ _)); [done |].
  intros [k v] Hin. apply list_elem_of_In, elem_of_map_to_list in Hin.
  by apply (H k).
Qed.

(** ** [export_type_xls] *)

Lemma xls_sheet_lookup (self : ExportableAdmin) (qs : QuerySet) r j :
  cells (records_written (tail (list_display self)) qs
           (header_written (meta self) (tail (list_display self))
              (blank_sheet (verbose_name_plural (meta self))))) !! (r, j) =
  match r with
  | 0 => get_verbose_name (meta self) <$> tail (list_display self) !! j
  | S i =>
      match qs !! i, tail (list_display self) !! j with
      | Some row, Some f => Some (unicode (getattr_default row f (Str "")))
      | _, _ => None
      end
  end.
Proof.
  rewrite records_written_lookup. destruct r as [|i].
  - rewrite header_written_lookup. simpl.
    by destruct (tail (list_display self) !! j).
  - rewrite header_written_lookup. simpl.
    by destruct (qs !! i), (tail (list_display self) !! j).
Qed.

Lemma xlwt_accepts_inv (self : ExportableAdmin) (qs : QuerySet) :
  xlwt_accepts self qs = true ->
  valid_sheet_name (verbose_name_plural (meta self)) = true /\
  (length qs <= max_row)%nat /\
  (length (tail (list_display self)) <= max_column + 1)%nat /\
  (forall f, f ∈ tail (list_display self) ->
     short_text (get_verbose_name (meta self) f) = true) /\
  (forall row f, row ∈ qs -> f ∈ tail (list_display self) ->
     short_text (unicode (getattr_default row f (Str ""))) = true).
Proof.
  unfold xlwt_accepts. cbv zeta.
  rewrite !andb_true_iff, !Nat.leb_le.
  intros [[[[Hn Hr] Hc] Hh] Hv].
  rewrite forallb_forall in Hh. rewrite forallb_forall in Hv.
  split; [done |]. split; [done |]. split; [done |]. split.
  - intros f Hf. apply Hh. by apply list_elem_of_In.
  - intros row f Hrow Hf. apply list_elem_of_In in Hrow.
    specialize (Hv row Hrow). rewrite forallb_forall in Hv.
    apply Hv. by apply list_elem_of_In.
Qed.

Lemma export_type_xls_ok (self : ExportableAdmin) (request : Request)
    (response : Response) (extra_context : option ExtraContext) qs :
  response_query_set response = inr qs ->
  xlwt_accepts self qs = true ->
  export_type_xls self request response extra_context =
  inr (stored_workbook
         [records_written (tail (list_display self)) qs
            (header_written (meta self) (tail (list_display self))
               (blank_sheet (verbose_name_plural (meta self))))]
         (set_header (HttpResponse "application/ms-excel")
            "Content-Disposition"
            ("attachment;filename="
             +:+ lower (verbose_name_plural (meta self)) +:+ ".xls"))).
Proof.
  intros H Hx.
  apply xlwt_accepts_inv in Hx as (Hname & Hrows & Hcols & Hh & Hv).
  unfold export_type_xls, rbind. cbv zeta. rewrite H. cbv beta iota.
  unfold add_sheet. rewrite Hname. cbv beta iota.
  rewrite write_header_accepted; [| done | intros c; apply lookup_empty].
  cbv beta iota. unfold write_records, enumerate.
  rewrite write_records_from_accepted; [| lia | done |].
  2:{ intros r c Hr. rewrite header_written_lookup.
      destruct r as [|r]; [lia |]. apply lookup_empty. }
  cbv beta iota.
  apply save_workbook_accepted. intros [r j] v.
  change (foldl _ ?s (enumerate_from 0 qs))
    with (records_written (tail (list_display self)) qs s).
  rewrite xls_sheet_lookup. destruct r as [|i].
  - destruct (tail (list_display self) !! j) as [f|] eqn:Hj; [| done].
    intros [= <-]. apply Hh. by eapply list_elem_of_lookup_2.
  - destruct (qs !! i) as [row|] eqn:Hi; [| done].
    destruct (tail (list_display self) !! j) as [f|] eqn:Hj; [| done].
    intros [= <-]. apply Hv; by eapply list_elem_of_lookup_2.
Qed.

Lemma export_type_xls_raises (self : ExportableAdmin) (request : Request)
    (response : Response) (extra_context : option ExtraContext) e :
  response_query_set response = inl e ->
  export_type_xls self request response extra_context = inl e.
Proof. intros H. unfold export_type_xls. by rewrite H. Qed.

Lemma export_type_xls_invalid_name (self : ExportableAdmin)
    (request : Request) (response : Response)
    (extra_context : option ExtraContext) qs :
  response_query_set response = inr qs ->
  valid_sheet_name (verbose_name_plural (meta self)) = false ->
  export_type_xls self request response extra_context
  = inl (Exception "invalid worksheet name").
Proof.
  intros H Hname. unfold export_type_xls, rbind. cbv zeta.
  rewrite H. cbv beta iota. unfold add_sheet. by rewrite Hname.
Qed.

Lemma export_type_xls_too_many_rows (self : ExportableAdmin)
    (request : Request) (response : Response)
    (extra_context : option ExtraContext) qs :
  response_query_set response = inr qs ->
  valid_sheet_name (verbose_name_plural (meta self)) = true ->
  (2 <= length (list_display self))%nat ->
  (length (tail (list_display self)) <= max_column + 1)%nat ->
  (max_row < length qs)%nat ->
  export_type_xls self request response extra_context
  = inl (ValueError "row index not allowed by .xls format").
Proof.
  intros H Hname Hdisplay Hcols Hrows.
  unfold export_type_xls, rbind. cbv zeta. rewrite H. cbv beta iota.
  unfold add_sheet. rewrite Hname. cbv beta iota.
  rewrite write_header_accepted; [| done | intros c; apply lookup_empty].
  cbv beta iota. unfold write_records, enumerate.
  rewrite <- (take_drop max_row qs) at 1.
  rewrite enumerate_from_app, for_each_app.
  assert (Hlen : length (take max_row qs) = max_row)
    by (rewrite length_take; lia).
  rewrite write_records_from_accepted; [| lia | done |].
  2:{ intros r c Hr. rewrite header_written_lookup.
      destruct r as [|r]; [lia |]. apply lookup_empty. }
  destruct (drop max_row qs) as [|row rest] eqn:Hdrop.
  { apply (f_equal length) in Hdrop. rewrite length_drop in Hdrop.
    cbn [length] in Hdrop. lia. }
  cbn [for_each enumerate_from]. unfold write_record, enumerate.
  destruct (list_display self) as [|f0 [|f display]];
    [cbn [length] in Hdisplay; lia | cbn [length] in Hdisplay; lia |].
  cbn [tail for_each enumerate_from].
  rewrite sheet_write_past_last_row; [done | lia].
Qed.

Lemma get_verbose_name_unknown (self : ExportableAdmin) (f : string) :
  unknown_field self f -> get_verbose_name (meta self) f = upper f.
Proof.
  unfold unknown_field, get_verbose_name.
  induction (fields (meta self)) as [|fld l IH]; intros H; [done |].
  rewrite filter_cons. destruct (decide (field_name fld = f)) as [E|E].
  - exfalso. apply (H fld); [by left | done].
  - apply IH. intros x Hx. apply H. by right.
Qed.







(** ** Headers *)

Lemma get_set_header_eq (r : Response) (n v : string) :
  get_header (set_header r n v) n = Some v.
Proof. unfold get_header, set_header. simpl. by rewrite lookup_insert_eq. Qed.

Lemma get_set_header_ne (r : Response) (n n' v : string) :
  lower n ≠ lower n' ->
  get_header (set_header r n v) n' = get_header r n'.
Proof.
  intros H. unfold get_header, set_header. simpl.
  by rewrite lookup_insert_ne.
Qed.

(** ** [changelist_view] *)

Lemma contains_truthy (extra_context : option ExtraContext) (key : string) :
  contains extra_context key = true -> truthy extra_context = true.
Proof.
  destruct extra_context as [d|]; simpl; [| done].
  intros H. apply bool_decide_eq_true in H as [v Hv].
  apply negb_true_iff, bool_decide_eq_false. intros ->.
  by rewrite lookup_empty in Hv.
Qed.

Section ChangelistView.
Variable reverse : string -> result string.
Variable slugify : string -> string.
Variable super_changelist_view :
  Request -> option ExtraContext -> result Response.
Variables (self : ExportableAdmin) (request : Request).

Let flagged : Request := setattr request "is_export_request" (Bool true).
Let run := run_changelist_view reverse slugify super_changelist_view self
             request.

Lemma hasattr_flagged : hasattr flagged "is_export_request" = true.
Proof.
  unfold hasattr, flagged, setattr. apply bool_decide_eq_true.
  rewrite lookup_insert_eq. by eexists.
Qed.

(** The delimited branch: flag, parent call, three assignments. *)
Lemma run_delimited (extra_context : option ExtraContext) :
  contains extra_context "export_delimiter" = true ->
  run extra_context =
  (match super_changelist_view flagged extra_context with
   | inl e => inl e
   | inr response =>
       inr (set_header
              (set_header
                 (set_template_name response
                    "django_exportable_admin/change_list_csv.html")
                 "Content-Type" "text/csv")
              "Content-Disposition"
              ("attachment; filename="
               +:+ slugify (verbose_name (meta self)) +:+ ".csv"))
   end,
   {| the_request := flagged;
      trace := [SuperChangelistView flagged extra_context] |}).
Proof.
  intros H. unfold run, run_changelist_view, changelist_view.
  rewrite (contains_truthy _ _ H), H. simpl.
  unfold bind, call_super, bind, get_request, emit, lift, set_request_attr.
  simpl. fold flagged.
  by destruct (super_changelist_view flagged extra_context).
Qed.

(** The typed branch, for the type [xls]: flag, parent call, then
    [export_type_xls] on the parent's response. *)
Lemma run_typed_xls (d : ExtraContext) :
  contains (Some d) "export_delimiter" = false ->
  d !! "export_type" = Some (CPy (Str "xls")) ->
  run (Some d) =
  match super_changelist_view flagged (Some d) with
  | inl e =>
      (inl e, {| the_request := flagged;
                 trace := [SuperChangelistView flagged (Some d)] |})
  | inr response =>
      (export_type_xls self flagged response (Some d),
       {| the_request := flagged;
          trace := [SuperChangelistView flagged (Some d);
                    ExportTypeMethod "export_type_xls" flagged response
                      (Some d)] |})
  end.
Proof.
  intros Hd Ht. unfold run, run_changelist_view, changelist_view.
  rewrite Hd, andb_false_r.
  assert (Hc : contains (Some d) "export_type" = true).
  { simpl. apply bool_decide_eq_true. by eexists. }
  rewrite (contains_truthy _ _ Hc), Hc. simpl.
  unfold bind, call_super, bind, get_request, emit, lift, set_request_attr.
  simpl. fold flagged.
  destruct (super_changelist_view flagged (Some d)); [done |].
  by rewrite Ht.
Qed.

(** In the typed branch the parent is called first, on the flagged
    request, whatever happens next. *)
Lemma run_typed_trace (extra_context : option ExtraContext) :
  contains extra_context "export_delimiter" = false ->
  contains extra_context "export_type" = true ->
  the_request (snd (run extra_context)) = flagged /\
  exists rest,
    trace (snd (run extra_context))
    = SuperChangelistView flagged extra_context :: rest.
Proof.
  intros Hd Ht. unfold run, run_changelist_view, changelist_view.
  rewrite Hd, andb_false_r, (contains_truthy _ _ Ht), Ht. simpl.
  unfold bind, call_super, bind, get_request, emit, lift, set_request_attr.
  simpl. fold flagged.
  destruct (super_changelist_view flagged extra_context) as [e|response];
    [by eauto |].
  destruct (subscript extra_context "export_type") as [e|v]; [by eauto |].
  destruct (getattr_self self _) as [e|[f|]]; simpl; by eauto.
Qed.

End ChangelistView.

(** C4.  For a request whose [extra_context] contains [export_delimiter],
    the response that [changelist_view] returns (the parent's response,
    when the parent returns one) has [Content-Type] equal to [text/csv] and
    [Content-Disposition] equal to [attachment; filename=<slug>.csv], where
    [<slug>] is the slugified verbose name of the model; its template is
    the CSV template. *)
Theorem changelist_view_csv_headers
    (reverse : string -> result string) (slugify : string -> string)
    (super_changelist_view :
       Request -> option ExtraContext -> result Response)
    (self : ExportableAdmin) (request : Request)
    (extra_context : option ExtraContext) (response : Response) :
  contains extra_context "export_delimiter" = true ->
  super_changelist_view
    (setattr request "is_export_request" (Bool true)) extra_context
    = inr response ->
  exists resp,
    fst (run_changelist_view reverse slugify super_changelist_view self
           request extra_context) = inr resp /\
    get_header resp "Content-Type" = Some "text/csv" /\
    get_header resp "Content-Disposition"
      = Some ("attachment; filename="
              +:+ slugify (verbose_name (meta self)) +:+ ".csv") /\
    template_name resp
      = Some "django_exportable_admin/change_list_csv.html".
Proof.
  intros Hd Hs. rewrite run_delimited by done. rewrite Hs. simpl.
  eexists. split; [reflexivity |]. split; [| split].
  - rewrite get_set_header_ne by (vm_compute; discriminate).
    apply get_set_header_eq.
  - apply get_set_header_eq.
  - reflexivity.
Qed.

Lemma changelist_view_csv_headers_witness :
  exists resp,
    fst (run_changelist_view Examples.any_reverse ascii_slugify
           (Examples.host_view Examples.rendered) Examples.csv_admin
           Examples.plain_request (Some Examples.csv_context)) = inr resp /\
    get_header resp "Content-Type" = Some "text/csv" /\
    get_header resp "Content-Disposition"
      = Some "attachment; filename=blog-article.csv".
Proof.
  destruct (changelist_view_csv_headers Examples.any_reverse ascii_slugify
              (Examples.host_view Examples.rendered) Examples.csv_admin
              Examples.plain_request (Some Examples.csv_context)
              Examples.rendered)
    as (resp & Hr & Ht & Hd & _).
  - reflexivity.
  - reflexivity.
  - exists resp. split; [exact Hr |]. split; [exact Ht | exact Hd].
Defined.

(** C10.  When [extra_context] contains both [export_delimiter] and
    [export_type], [changelist_view] takes the delimited branch: the only
    call that leaves it is the parent's [changelist_view] (no
    [export_type_<t>] method is invoked) and the response, when the parent
    returns one, is the [text/csv] one.  In either export branch the
    request handed to the parent's [changelist_view] already carries
    [is_export_request], and that call is the first one made. *)
Theorem delimiter_takes_precedence
    (reverse : string -> result string) (slugify : string -> string)
    (super_changelist_view :
       Request -> option ExtraContext -> result Response)
    (self : ExportableAdmin) (request : Request)
    (extra_context : option ExtraContext) :
  let flagged := setattr request "is_export_request" (Bool true) in
  let out := run_changelist_view reverse slugify super_changelist_view self
               request extra_context in
  (contains extra_context "export_delimiter" = true ->
   contains extra_context "export_type" = true ->
   trace (snd out) = [SuperChangelistView flagged extra_context] /\
   existsb is_export_type_call (trace (snd out)) = false /\
   forall response,
     super_changelist_view flagged extra_context = inr response ->
     exists resp, fst out = inr resp /\
                  get_header resp "Content-Type" = Some "text/csv") /\
  (contains extra_context "export_delimiter" = true \/
   contains extra_context "export_type" = true ->
   hasattr flagged "is_export_request" = true /\
   the_request (snd out) = flagged /\
   exists rest,
     trace (snd out) = SuperChangelistView flagged extra_context :: rest).
Proof.
  intros flagged out. split.
  - intros Hd _. unfold out. rewrite run_delimited by done. simpl.
    split; [done |]. split; [done |].
    intros response Hs. fold flagged. rewrite Hs.
    eexists. split; [reflexivity |].
    rewrite get_set_header_ne by (vm_compute; discriminate).
    apply get_set_header_eq.
  - intros H. split; [apply hasattr_flagged |].
    destruct (contains extra_context "export_delimiter") eqn:Hd.
    + unfold out. rewrite run_delimited by done. simpl.
      split; [done |]. by eexists.
    + destruct H as [H|H]; [done |].
      by apply run_typed_trace.
Qed.

Lemma delimiter_takes_precedence_witness :
  let out := run_changelist_view Examples.any_reverse ascii_slugify
               (Examples.host_view Examples.rendered) Examples.xls_admin
               Examples.plain_request (Some Examples.both_context) in
  trace (snd out)
    = [SuperChangelistView Examples.export_request
         (Some Examples.both_context)] /\
  existsb is_export_type_call (trace (snd out)) = false.
Proof.
  destruct (delimiter_takes_precedence Examples.any_reverse ascii_slugify
              (Examples.host_view Examples.rendered) Examples.xls_admin
              Examples.plain_request (Some Examples.both_context))
    as [H _].
  destruct H as (Ht & Hn & _).
  - reflexivity.
  - reflexivity.
  - split; [exact Ht | exact Hn].
Defined.




(** * Further properties of the module *)

(** ** The export flag *)

(** X1.  [get_paginator] looks at the presence of [is_export_request], not
    at its value: whatever is stored under that name (even [False] or
    [None]) selects the export paginator, and no other attribute of the
    request has any influence. *)
Theorem get_paginator_flag_presence (self : ExportableAdmin)
    (request : Request) (queryset : QuerySet) (per_page orphans : Z)
    (allow_empty_first_page : bool) :
  (forall v,
     get_paginator self (setattr request "is_export_request" v) queryset
       per_page orphans allow_empty_first_page
     = paginator queryset (export_queryset_limit self) 0 true) /\
  (forall a v, a <> "is_export_request" ->
     get_paginator self (setattr request a v) queryset per_page orphans
       allow_empty_first_page
     = get_paginator self request queryset per_page orphans
         allow_empty_first_page).
Proof.
  unfold get_paginator, hasattr, setattr. split.
  - intros v. rewrite lookup_insert_eq.
    by rewrite bool_decide_eq_true_2 by (by eexists).
  - intros a v Ha. by rewrite lookup_insert_ne.
Qed.

Lemma get_paginator_flag_presence_witness :
  get_paginator Examples.csv_admin
    (setattr Examples.plain_request "is_export_request" (Bool false))
    [] 100 5 false
  = paginator [] 10000 0 true
  /\ get_paginator Examples.csv_admin
       (setattr Examples.plain_request "user" (Str "ann")) [] 100 5 false
     = paginator [] 100 5 false.
Proof.
  destruct (get_paginator_flag_presence Examples.csv_admin
              Examples.plain_request [] 100 5 false) as [Hflag Hother].
  split.
  - apply Hflag.
  - rewrite Hother; [reflexivity | discriminate].
Defined.

(** ** A class without formats and types *)

(** X5.  As the class docstring says, an admin that sets neither
    [export_formats] nor [export_types] gets nothing: [get_urls] is the
    parent's table unchanged and [get_export_buttons] is the empty list,
    without a single call of [reverse] (so it cannot fail). *)
Theorem no_formats_no_types_does_nothing
    (reverse : string -> result string) (self : ExportableAdmin)
    (request : Request) :
  export_formats self = [] -> export_types self = [] ->
  get_urls self = super_get_urls self /\
  get_export_buttons reverse self request = inr [].
Proof.
  intros Hf Ht. unfold get_urls, patterns, new_urls, get_export_buttons.
  by rewrite Hf, Ht.
Qed.

Lemma no_formats_no_types_does_nothing_witness :
  get_urls (ExportableAdmin_ Examples.article_meta Examples.display
              Examples.host_routes) = Examples.host_routes /\
  get_export_buttons Examples_no_reverse
    (ExportableAdmin_ Examples.article_meta Examples.display
       Examples.host_routes) Examples.plain_request = inr [].
Proof.
  apply (no_formats_no_types_does_nothing Examples_no_reverse
           (ExportableAdmin_ Examples.article_meta Examples.display
              Examples.host_routes) Examples.plain_request);
    reflexivity.
Defined.

(** ** Labels *)

(** X12.  [get_verbose_name] uses the first model field whose name is the
    display name, whatever follows it in [meta.fields]: the label is that
    field's verbose name in upper case, or, when the verbose name is unset
    or empty, the field's name in upper case. *)
Theorem get_verbose_name_first_match (meta : Options)
    (pre post : list Field) (f : Field) (fieldname : string) :
  fields meta = pre ++ f :: post ->
  (forall x, x ∈ pre -> field_name x <> fieldname) ->
  field_name f = fieldname ->
  get_verbose_name meta fieldname =
  upper (match field_verbose_name f with
         | Some (String c s) => String c s
         | _ => fieldname
         end).
Proof.
  intros Hfields Hpre Hf. unfold get_verbose_name. rewrite Hfields.
  clear Hfields. induction pre as [|x pre IH]; simpl.
  - rewrite filter_cons, decide_True by done. unfold or_else.
    rewrite Hf. by destruct (field_verbose_name f) as [[|c s]|].
  - rewrite filter_cons, decide_False by (apply Hpre; by left).
    apply IH. intros y Hy. apply Hpre. by right.
Qed.

Lemma get_verbose_name_first_match_witness :
  get_verbose_name Examples.article_meta "views" = "VIEWS".
Proof.
  apply (get_verbose_name_first_match Examples.article_meta
           [ {| field_name := "id"; field_verbose_name := Some "ID" |};
             {| field_name := "title";
                field_verbose_name := Some "headline" |} ]
           []
           {| field_name := "views"; field_verbose_name := None |}
           "views").
  - reflexivity.
  - intros x Hx. apply list_elem_of_In in Hx. simpl in Hx.
    destruct Hx as [<-|[<-|[]]]; discriminate.
  - reflexivity.
Defined.

(** ** The extent of the sheet *)

Lemma records_written_name (display : list string) (queryset : QuerySet)
    (sht : Sheet) :
  sheet_name (records_written display queryset sht) = sheet_name sht.
Proof.
  unfold records_written, enumerate. generalize 0 as k. revert sht.
  induction queryset as [|row qs IH]; intros sht k; [done |].
  simpl. rewrite IH. unfold record_written, enumerate.
  apply (write_row_name (k + 1)
           (fun f => unicode (getattr_default row f (Str "")))).
Qed.

Lemma header_written_name (meta : Options) (display : list string)
    (sht : Sheet) :
  sheet_name (header_written meta display sht) = sheet_name sht.
Proof.
  unfold header_written, enumerate.
  apply (write_row_name 0 (get_verbose_name meta)).
Qed.



(** ** Buttons that do not resolve *)

Lemma comprehension_app {A B} (f : A -> result B) (l1 l2 : list A) :
  comprehension f (l1 ++ l2) =
  let? a := comprehension f l1 in
  let? b := comprehension f l2 in
  inr (a ++ b).
Proof.
  induction l1 as [|x l1 IH]; simpl.
  - by destruct (comprehension f l2).
  - destruct (f x) as [e|y]; [done |]. rewrite IH.
    destruct (comprehension f l1) as [e|a]; [done |]. simpl.
    by destruct (comprehension f l2).
Qed.

Lemma comprehension_first_error {A B} (f : A -> result B)
    (pre post : list A) (x : A) e :
  forallb (fun y => is_ok (f y)) pre = true ->
  f x = inl e ->
  comprehension f (pre ++ x :: post) = inl e.
Proof.
  intros Hpre Hx. induction pre as [|y pre IH]; simpl in *.
  - by rewrite Hx.
  - apply andb_true_iff in Hpre as [Hy Hpre].
    destruct (f y) as [e'|b]; [done |]. by rewrite IH.
Qed.

Lemma comprehension_labelled {A B C} (key : A -> B -> C) (g : A -> result B)
    (l : list A) :
  comprehension (fun x => let? u := g x in inr (key x u)) l =
  let? us := comprehension g l in inr (zip_with key l us).
Proof.
  induction l as [|x l IH]; [done |]. simpl.
  destruct (g x) as [e|u]; [done |]. simpl. rewrite IH.
  by destruct (comprehension g l).
Qed.

Lemma comprehension_map {A B C} (h : A -> B) (g : B -> result C)
    (l : list A) :
  comprehension g (map h l) = comprehension (fun x => g (h x)) l.
Proof. induction l as [|x l IH]; [done |]. simpl. by rewrite IH. Qed.

Section Unresolved.
Variable reverse : string -> result string.

Lemma get_export_buttons_error (self : ExportableAdmin)
    (request : Request) e :
  comprehension (fun n => reverse (export_viewname self n))
    (export_names self) = inl e ->
  get_export_buttons reverse self request = inl e.
Proof.
  unfold export_names, get_export_buttons.
  rewrite comprehension_app, comprehension_map.
  rewrite (comprehension_ext _
    (fun x => let? u := reverse (export_viewname self (fst x)) in
              inr (("Export " +:+ fst x), u)))
    by (by intros [n d]).
  rewrite (comprehension_labelled (fun x u => ("Export " +:+ fst x, u))
             (fun x => reverse (export_viewname self (fst x)))).
  rewrite (comprehension_labelled (fun t u => ("Export " +:+ upper t, u))
             (fun t => reverse (export_viewname self t))).
  unfold rbind.
  destruct (comprehension _ (export_formats self)) as [e1|us];
    [by intros [= ->] |].
  destruct (comprehension _ (export_types self)) as [e2|vs];
    [by intros [= ->] | done].
Qed.

End Unresolved.

(** X4.  [get_export_buttons] resolves the configured names in order,
    formats first, and stops at the first one the host cannot resolve: the
    exception of that [reverse] call is what it raises, and no button list
    is returned, even if every other name resolves. *)
Theorem get_export_buttons_first_error
    (reverse : string -> result string) (self : ExportableAdmin)
    (request : Request) (pre post : list string) (n : string) e :
  export_names self = pre ++ n :: post ->
  forallb (fun m => is_ok (reverse (export_viewname self m))) pre = true ->
  reverse (export_viewname self n) = inl e ->
  get_export_buttons reverse self request = inl e.
Proof.
  intros Hnames Hpre Hn. apply get_export_buttons_error.
  rewrite Hnames. by apply comprehension_first_error.
Qed.

Lemma get_export_buttons_first_error_witness :
  get_export_buttons
    (fun v => if bool_decide (v = "admin:blog_article_export_pipe")
              then inl (NoReverseMatch v) else inr ("/" +:+ v))
    Examples.clashing_admin Examples.plain_request
  = inl (NoReverseMatch "admin:blog_article_export_pipe").
Proof.
  apply (get_export_buttons_first_error _ Examples.clashing_admin
           Examples.plain_request ["CSV"] ["csv"] "Pipe");
    reflexivity.
Defined.

(** ** The ordinary change list *)

Lemma or_empty_lookup (extra_context : option ExtraContext) (k : string) :
  or_empty extra_context !! k =
  match extra_context with
  | Some d => d !! k
  | None => None
  end.
Proof.
  destruct extra_context as [d|]; simpl; [| done].
  destruct (decide (d = ∅)) as [->|Hd].
  - by rewrite bool_decide_eq_true_2.
  - by rewrite bool_decide_eq_false_2.
Qed.

Section Ordinary.
Variable reverse : string -> result string.
Variable slugify : string -> string.
Variable super_changelist_view :
  Request -> option ExtraContext -> result Response.
Variables (self : ExportableAdmin) (request : Request).
Variable extra_context : option ExtraContext.
Hypothesis no_delimiter : contains extra_context "export_delimiter" = false.
Hypothesis no_type : contains extra_context "export_type" = false.

Lemma run_ordinary :
  run_changelist_view reverse slugify super_changelist_view self request
    extra_context =
  match get_export_buttons reverse self request with
  | inl e => (inl e, {| the_request := request; trace := [] |})
  | inr buttons =>
      let ec := <["export_buttons" := CButtons buttons]>
                  (or_empty extra_context) in
      (super_changelist_view request (Some ec),
       {| the_request := request;
          trace := [SuperChangelistView request (Some ec)] |})
  end.
Proof.
  unfold run_changelist_view, changelist_view.
  rewrite no_delimiter, no_type, !andb_false_r.
  unfold bind, call_super, bind, get_request, emit, lift. simpl.
  by destruct (get_export_buttons reverse self request).
Qed.

End Ordinary.

(** X2.  Without [export_delimiter] and [export_type] in [extra_context]
    (also when it is [None] or empty), and when the buttons resolve,
    [changelist_view] does not touch the request, calls the parent's
    [changelist_view] exactly once and returns whatever that call returns
    or raises.  The context it passes holds the button list under
    [export_buttons] (replacing an entry of that name) and every other
    entry of the given context unchanged. *)
Theorem changelist_view_ordinary
    (reverse : string -> result string) (slugify : string -> string)
    (super_changelist_view :
       Request -> option ExtraContext -> result Response)
    (self : ExportableAdmin) (request : Request)
    (extra_context : option ExtraContext)
    (buttons : list (string * string)) :
  contains extra_context "export_delimiter" = false ->
  contains extra_context "export_type" = false ->
  get_export_buttons reverse self request = inr buttons ->
  let out := run_changelist_view reverse slugify super_changelist_view self
               request extra_context in
  exists ec,
    trace (snd out) = [SuperChangelistView request (Some ec)] /\
    fst out = super_changelist_view request (Some ec) /\
    the_request (snd out) = request /\
    ec !! "export_buttons" = Some (CButtons buttons) /\
    forall k, k <> "export_buttons" ->
      ec !! k = match extra_context with
                | Some d => d !! k
                | None => None
                end.
Proof.
  intros Hd Ht Hb out. unfold out.
  rewrite run_ordinary by done. rewrite Hb. simpl.
  eexists. split; [reflexivity |]. split; [reflexivity |].
  split; [reflexivity |]. split.
  - apply lookup_insert_eq.
  - intros k Hk. rewrite lookup_insert_ne by done. apply or_empty_lookup.
Qed.

Lemma changelist_view_ordinary_witness :
  let out := run_changelist_view Examples.any_reverse ascii_slugify
               (Examples.host_view Examples.rendered) Examples.csv_admin
               Examples.plain_request None in
  exists ec,
    trace (snd out) = [SuperChangelistView Examples.plain_request (Some ec)]
    /\ fst out = inr Examples.rendered
    /\ ec !! "export_buttons"
       = Some (CButtons [("Export CSV", "/admin:blog_article_export_csv")]).
Proof.
  destruct (changelist_view_ordinary Examples.any_reverse ascii_slugify
              (Examples.host_view Examples.rendered) Examples.csv_admin
              Examples.plain_request None
              [("Export CSV", "/admin:blog_article_export_csv")])
    as (ec & Ht & Hr & _ & Hb & _); [reflexivity | reflexivity
                                      | reflexivity |].
  exists ec. split; [exact Ht |]. split; [exact Hr | exact Hb].
Defined.

(** X3.  Without [export_delimiter] and [export_type] in [extra_context],
    a button that does not resolve makes the whole change list fail:
    [changelist_view] raises the exception of [get_export_buttons] and the
    parent's [changelist_view] is never called. *)
Theorem changelist_view_unresolved_button
    (reverse : string -> result string) (slugify : string -> string)
    (super_changelist_view :
       Request -> option ExtraContext -> result Response)
    (self : ExportableAdmin) (request : Request)
    (extra_context : option ExtraContext) e :
  contains extra_context "export_delimiter" = false ->
  contains extra_context "export_type" = false ->
  get_export_buttons reverse self request = inl e ->
  let out := run_changelist_view reverse slugify super_changelist_view self
               request extra_context in
  fst out = inl e /\ trace (snd out) = [] /\ the_request (snd out) = request.
Proof.
  intros Hd Ht Hb out. unfold out.
  rewrite run_ordinary by done. by rewrite Hb.
Qed.

Lemma changelist_view_unresolved_button_witness :
  let out := run_changelist_view Examples_no_reverse ascii_slugify
               (Examples.host_view Examples.rendered) Examples.csv_admin
               Examples.plain_request (Some ∅) in
  fst out = inl (NoReverseMatch "admin:blog_article_export_csv") /\
  trace (snd out) = [].
Proof.
  destruct (changelist_view_unresolved_button Examples_no_reverse
              ascii_slugify (Examples.host_view Examples.rendered)
              Examples.csv_admin Examples.plain_request (Some ∅)
              (NoReverseMatch "admin:blog_article_export_csv"))
    as (Hr & Ht & _); [reflexivity | reflexivity | reflexivity |].
  split; [exact Hr | exact Ht].
Defined.

(** ** From a route to its export *)

Lemma format_url_in_get_urls (self : ExportableAdmin) fmt :
  fmt ∈ export_formats self -> format_url self fmt ∈ get_urls self.
Proof.
  intros H. unfold get_urls, patterns. rewrite new_urls_eq.
  apply elem_of_app. left. apply elem_of_app. left.
  by apply list_elem_of_fmap_2.
Qed.

Lemma type_url_in_get_urls (self : ExportableAdmin) t :
  t ∈ export_types self -> type_url self t ∈ get_urls self.
Proof.
  intros H. unfold get_urls, patterns. rewrite new_urls_eq.
  apply elem_of_app. left. apply elem_of_app. right.
  by apply list_elem_of_fmap_2.
Qed.

(** X6.  The route that [get_urls] registers for a configured format
    leads, when the host dispatches it to [changelist_view], into the
    delimited branch: the parent's [changelist_view] is the only call made,
    it receives the flagged request and a context in which
    [export_delimiter] is the configured delimiter, and the response, when
    the parent returns one, is labelled [text/csv]. *)
Theorem format_route_exports_csv
    (reverse : string -> result string) (slugify : string -> string)
    (super_changelist_view :
       Request -> option ExtraContext -> result Response)
    (self : ExportableAdmin) (request : Request) (n d : string) :
  (n, d) ∈ export_formats self ->
  let r := format_url self (n, d) in
  let flagged := setattr request "is_export_request" (Bool true) in
  let ec : ExtraContext := {[ "export_delimiter" := CPy (Str d) ]} in
  let out := dispatch reverse slugify super_changelist_view self request r in
  r ∈ get_urls self /\
  callback r = AdminChangelistView /\
  trace (snd out) = [SuperChangelistView flagged (Some ec)] /\
  forall response,
    super_changelist_view flagged (Some ec) = inr response ->
    exists resp, fst out = inr resp /\
                 get_header resp "Content-Type" = Some "text/csv".
Proof.
  intros Hin r flagged ec out.
  split; [by apply format_url_in_get_urls |]. split; [done |].
  assert (Hec : route_extra_context r = Some ec).
  { unfold route_extra_context, r. simpl. apply lookup_singleton_eq. }
  assert (Hc : contains (Some ec) "export_delimiter" = true).
  { simpl. apply bool_decide_eq_true. unfold ec.
    rewrite lookup_singleton_eq. by eexists. }
  unfold out, dispatch. rewrite Hec, run_delimited by done. simpl.
  split; [done |]. intros response Hs. fold flagged. rewrite Hs.
  eexists. split; [reflexivity |].
  rewrite get_set_header_ne by (vm_compute; discriminate).
  apply get_set_header_eq.
Qed.

Lemma format_route_exports_csv_witness :
  let out := dispatch Examples.any_reverse ascii_slugify
               (Examples.host_view Examples.rendered) Examples.multi_admin
               Examples.plain_request
               (format_url Examples.multi_admin ("Pipe", "|")) in
  trace (snd out)
    = [SuperChangelistView Examples.export_request
         (Some {[ "export_delimiter" := CPy (Str "|") ]})] /\
  exists resp, fst out = inr resp /\
               get_header resp "Content-Type" = Some "text/csv".
Proof.
  destruct (format_route_exports_csv Examples.any_reverse ascii_slugify
              (Examples.host_view Examples.rendered) Examples.multi_admin
              Examples.plain_request "Pipe" "|")
    as (_ & _ & Ht & Hr).
  - apply list_elem_of_In. simpl. tauto.
  - split; [exact Ht |]. apply (Hr Examples.rendered). reflexivity.
Defined.

(** X7.  The route that [get_urls] registers for a configured type whose
    name is [xls] in any letter case leads, when dispatched, to the
    spreadsheet export: [changelist_view] calls the parent's
    [changelist_view] on the flagged request and then returns what
    [export_type_xls] returns or raises on the parent's response (or
    raises what the parent raised). *)
Theorem xls_route_exports_spreadsheet
    (reverse : string -> result string) (slugify : string -> string)
    (super_changelist_view :
       Request -> option ExtraContext -> result Response)
    (self : ExportableAdmin) (request : Request) (t : string) :
  t ∈ export_types self ->
  lower t = "xls" ->
  let r := type_url self t in
  let flagged := setattr request "is_export_request" (Bool true) in
  let ec : ExtraContext := {[ "export_type" := CPy (Str "xls") ]} in
  let out := dispatch reverse slugify super_changelist_view self request r in
  r ∈ get_urls self /\
  fst out =
    (let? response := super_changelist_view flagged (Some ec) in
     export_type_xls self flagged response (Some ec)) /\
  exists rest,
    trace (snd out) = SuperChangelistView flagged (Some ec) :: rest.
Proof.
  intros Hin Hl r flagged ec out.
  split; [by apply type_url_in_get_urls |].
  assert (Hec : route_extra_context r = Some ec).
  { unfold route_extra_context, r, type_url. simpl. rewrite Hl.
    apply lookup_singleton_eq. }
  assert (Hd : contains (Some ec) "export_delimiter" = false).
  { simpl. apply bool_decide_eq_false. unfold ec.
    rewrite lookup_singleton_ne by done. by intros [? ?]. }
  assert (Ht : ec !! "export_type" = Some (CPy (Str "xls")))
    by apply lookup_singleton_eq.
  unfold out, dispatch. rewrite Hec, run_typed_xls by done.
  fold flagged.
  destruct (super_changelist_view flagged (Some ec)); simpl;
    (split; [done | by eexists]).
Qed.

Lemma xls_route_exports_spreadsheet_witness :
  exists resp,
    fst (dispatch Examples.any_reverse ascii_slugify
           (Examples.host_view Examples.rendered)
           Examples_small_limit_admin Examples.plain_request
           (type_url Examples_small_limit_admin "XLS")) = inr resp /\
    get_header resp "Content-Type" = Some "application/ms-excel".
Proof.
  destruct (xls_route_exports_spreadsheet Examples.any_reverse
              ascii_slugify (Examples.host_view Examples.rendered)
              Examples_small_limit_admin Examples.plain_request "XLS")
    as (_ & Hr & _).
  - apply list_elem_of_In. simpl. tauto.
  - reflexivity.
  - eexists. split; [rewrite Hr; reflexivity | reflexivity].
Defined.

(** X8.  An [export_type] other than [xls] has no method on the class:
    [changelist_view] still flags the request and calls the parent's
    [changelist_view] first, and only then fails on looking up
    [export_type_<t>]; the parent's own exception, if it raises, comes
    first. *)
Theorem unknown_export_type_raises
    (reverse : string -> result string) (slugify : string -> string)
    (super_changelist_view :
       Request -> option ExtraContext -> result Response)
    (self : ExportableAdmin) (request : Request) (d : ExtraContext)
    (v : value) :
  contains (Some d) "export_delimiter" = false ->
  d !! "export_type" = Some (CPy v) ->
  unicode v <> "xls" ->
  let flagged := setattr request "is_export_request" (Bool true) in
  let out := run_changelist_view reverse slugify super_changelist_view self
               request (Some d) in
  trace (snd out) = [SuperChangelistView flagged (Some d)] /\
  the_request (snd out) = flagged /\
  fst out =
    match super_changelist_view flagged (Some d) with
    | inl e => inl e
    | inr _ => inl (AttributeError ("export_type_" +:+ unicode v))
    end.
Proof.
  intros Hd Ht Hv flagged out.
  unfold out, run_changelist_view, changelist_view.
  rewrite Hd, andb_false_r.
  assert (Hc : contains (Some d) "export_type" = true).
  { simpl. apply bool_decide_eq_true. by eexists. }
  rewrite (contains_truthy _ _ Hc), Hc. simpl.
  unfold bind, call_super, bind, get_request, emit, lift, set_request_attr.
  simpl. fold flagged.
  destruct (super_changelist_view flagged (Some d)) as [e|response];
    [done |].
  rewrite Ht. simpl. unfold getattr_self.
  rewrite bool_decide_eq_false_2.
  2:{ intros H. apply Hv. by apply (app_inj_l "export_type_"). }
  rewrite bool_decide_eq_false_2; [done |].
  simpl. intros [= H].
Qed.

Lemma unknown_export_type_raises_witness :
  let out := run_changelist_view Examples.any_reverse ascii_slugify
               (Examples.host_view Examples.rendered) Examples.xls_admin
               Examples.plain_request
               (Some {[ "export_type" := CPy (Str "pdf") ]}) in
  fst out = inl (AttributeError "export_type_pdf") /\
  the_request (snd out) = Examples.export_request.
Proof.
  destruct (unknown_export_type_raises Examples.any_reverse ascii_slugify
              (Examples.host_view Examples.rendered) Examples.xls_admin
              Examples.plain_request
              {[ "export_type" := CPy (Str "pdf") ]} (Str "pdf"))
    as (_ & Hq & Hr); [reflexivity | reflexivity | discriminate |].
  split; [exact Hr | exact Hq].
Defined.

(** ** What the export responses keep *)

(** X9.  The delimited export changes the parent's response in three
    places only (template name, [Content-Type], [Content-Disposition]):
    its context data, its body and every other header are those the
    parent's [changelist_view] returned. *)
Theorem csv_export_keeps_rest_of_response
    (reverse : string -> result string) (slugify : string -> string)
    (super_changelist_view :
       Request -> option ExtraContext -> result Response)
    (self : ExportableAdmin) (request : Request)
    (extra_context : option ExtraContext) (response : Response) :
  contains extra_context "export_delimiter" = true ->
  super_changelist_view
    (setattr request "is_export_request" (Bool true)) extra_context
    = inr response ->
  exists resp,
    fst (run_changelist_view reverse slugify super_changelist_view self
           request extra_context) = inr resp /\
    context_data resp = context_data response /\
    content resp = content response /\
    forall name,
      lower name <> "content-type" ->
      lower name <> "content-disposition" ->
      get_header resp name = get_header response name.
Proof.
  intros Hd Hs. rewrite run_delimited by done. rewrite Hs. simpl.
  eexists. split; [reflexivity |]. split; [done |]. split; [done |].
  intros name Ht Hc. by rewrite !get_set_header_ne by done.
Qed.

Lemma csv_export_keeps_rest_of_response_witness :
  exists resp,
    fst (run_changelist_view Examples.any_reverse ascii_slugify
           (Examples.host_view Examples.redirect) Examples.csv_admin
           Examples.plain_request (Some Examples.csv_context)) = inr resp /\
    get_header resp "Location" = Some "?e=1" /\
    content resp = Raw "".
Proof.
  destruct (csv_export_keeps_rest_of_response Examples.any_reverse
              ascii_slugify (Examples.host_view Examples.redirect)
              Examples.csv_admin Examples.plain_request
              (Some Examples.csv_context) Examples.redirect)
    as (resp & Hr & _ & Hc & Hh); [reflexivity | reflexivity |].
  exists resp. split; [exact Hr |]. split.
  - rewrite Hh; [reflexivity | discriminate | discriminate].
  - rewrite Hc. reflexivity.
Defined.


